(** * The clan site backend (server.py): document store, auth gate, routes

    A shallow embedding of the request handlers of [server.py].  The
    handlers are Python coroutines that talk to a MongoDB database through
    [motor]; here a handler is a function from the database state to an
    outcome and a new database state.  Documents are schema-free
    dictionaries, so they are finite maps from field names to values.

    The routes are those registered on [api_router]; the chat relay, which
    only forwards a message to an external LLM, and the CORS and logging
    setup are left out.

    What the code obtains from its libraries and its environment is kept
    apart from the code itself:
    - the environment variables are a record [Environment];
    - PyJWT, [datetime] and pydantic's coercions are interfaces (classes)
      whose operations the handlers call;
    - the results of [uuid.uuid4()] and [datetime.now(timezone.utc)] during
      one request are given by a record [Entropy]. *)

From Stdlib Require Import Ascii.
From stdpp Require Import gmap strings list sorting.

Open Scope Z_scope.

(** ** Values and documents *)

(** The values that occur in the documents of this program: JSON scalars,
    datetimes (seconds since the epoch) and the store's ObjectId. *)
Inductive value : Type :=
  | VNull
  | VBool (b : bool)
  | VInt (z : Z)
  | VStr (s : string)
  | VDate (t : Z)
  | VOid (n : N).

#[global] Instance value_eq_dec : EqDecision value.
Proof. solve_decision. Defined.

Abbreviation doc := (gmap string value).

(** Python exceptions the handlers raise or let escape. *)
Inductive exn : Type :=
  | HTTPException (status_code : Z) (detail : string)
  | ValidationError
  | ValueError
  | TypeError.

Inductive result (A : Type) : Type :=
  | Ok (a : A)
  | Raise (e : exn).
Arguments Ok {A} a.
Arguments Raise {A} e.

Definition HTTP_401_UNAUTHORIZED : Z := 401.

(** ** The document store *)

Inductive collection : Type := Leaders | Wars | Gallery | Testimonials.

(** [db.leaders], [db.wars], [db.gallery], [db.testimonials]: each
    collection is the list of its documents in insertion order.
    [next_oid] is the source of fresh [_id] values. *)
Record DB : Type := mkDB {
  leaders : list doc;
  wars : list doc;
  gallery : list doc;
  testimonials : list doc;
  next_oid : N
}.

Definition empty_db : DB := mkDB [] [] [] [] 0%N.

Definition get_coll (c : collection) (db : DB) : list doc :=
  match c with
  | Leaders => leaders db
  | Wars => wars db
  | Gallery => gallery db
  | Testimonials => testimonials db
  end.

Definition set_coll (c : collection) (l : list doc) (db : DB) : DB :=
  match c with
  | Leaders => mkDB l (wars db) (gallery db) (testimonials db) (next_oid db)
  | Wars => mkDB (leaders db) l (gallery db) (testimonials db) (next_oid db)
  | Gallery => mkDB (leaders db) (wars db) l (testimonials db) (next_oid db)
  | Testimonials => mkDB (leaders db) (wars db) (gallery db) l (next_oid db)
  end.

(** Handlers run against the store and may raise: a state monad with
    exceptions.  A raised exception keeps the writes made before it. *)
Definition Handler (A : Type) : Type := DB → result A * DB.

Definition ret {A} (a : A) : Handler A := λ db, (Ok a, db).
Definition raise {A} (e : exn) : Handler A := λ db, (Raise e, db).
Definition bind {A B} (m : Handler A) (k : A → Handler B) : Handler B :=
  λ db, match m db with
        | (Ok a, db') => k a db'
        | (Raise e, db') => (Raise e, db')
        end.

Notation "'let!' x ':=' m 'in' k" := (bind m (λ x, k))
  (at level 10, x name, m at level 100, k at level 200, only parsing).

Module Mongo.

(** A query document [{k1: v1, ...}] selects the documents whose fields
    equal the given values. *)
Definition matches (query : doc) (d : doc) : bool :=
  bool_decide (map_Forall (λ k v, d !! k = Some v) query).

(** The projection [{"_id": 0}]. *)
Definition project_no_id (d : doc) : doc := delete "_id" d.

(** BSON comparison order across types: null (and a missing field),
    numbers, strings, ObjectId, booleans, dates. *)
Definition type_rank (v : value) : nat :=
  match v with
  | VNull => 0
  | VInt _ => 1
  | VStr _ => 2
  | VOid _ => 3
  | VBool _ => 4
  | VDate _ => 5
  end%nat.

Definition bson_le (a b : value) : bool :=
  match a, b with
  | VNull, VNull => true
  | VInt x, VInt y => (x <=? y)%Z
  | VStr s, VStr t => String.leb s t
  | VOid m, VOid n => (m <=? n)%N
  | VBool x, VBool y => implb x y
  | VDate s, VDate t => (s <=? t)%Z
  | _, _ => (type_rank a <=? type_rank b)%nat
  end.

Definition sort_key (key : string) (d : doc) : value :=
  default VNull (d !! key).

(** Sort directions [1] and [-1]. *)
Inductive direction : Type := Ascending | Descending.

Definition before (key : string) (dir : direction) : relation doc :=
  λ d1 d2,
    match dir with
    | Ascending => Is_true (bson_le (sort_key key d1) (sort_key key d2))
    | Descending => Is_true (bson_le (sort_key key d2) (sort_key key d1))
    end.

#[global] Instance before_dec key dir d1 d2 : Decision (before key dir d1 d2).
Proof. destruct dir; simpl; apply _. Defined.

(** [db.c.find(query, {"_id": 0}).sort(key, dir).to_list(n)] *)
Definition find_sort_to_list (c : collection) (query : doc)
    (key : string) (dir : direction) (n : nat) : Handler (list doc) :=
  λ db,
    (Ok (take n (project_no_id <$>
           merge_sort (before key dir) (filter (λ d, Is_true (matches query d)) (get_coll c db)))),
     db).

(** [db.c.find_one(query, {"_id": 0})] *)
Definition find_one (c : collection) (query : doc) : Handler (option doc) :=
  λ db,
    (Ok (project_no_id <$> head (filter (λ d, Is_true (matches query d)) (get_coll c db))), db).

(** [db.c.count_documents(query)] *)
Definition count_documents (c : collection) (query : doc) : Handler nat :=
  λ db, (Ok (length (filter (λ d, Is_true (matches query d)) (get_coll c db))), db).

(** The driver gives a document without [_id] a fresh ObjectId. *)
Definition with_oid (n : N) (d : doc) : doc :=
  match d !! "_id" with
  | Some _ => d
  | None => <["_id" := VOid n]> d
  end.

(** [db.c.insert_one(d)] *)
Definition insert_one (c : collection) (d : doc) : Handler unit :=
  λ db,
    (Ok tt,
     set_coll c (get_coll c db ++ [with_oid (next_oid db) d])
       (mkDB (leaders db) (wars db) (gallery db) (testimonials db) (N.succ (next_oid db)))).

(** [db.c.insert_many(ds)] *)
Fixpoint insert_many (c : collection) (ds : list doc) : Handler unit :=
  match ds with
  | [] => ret tt
  | d :: ds' => let! _ := insert_one c d in insert_many c ds'
  end.

(** The update document [{"$set": fields}] applied to one document. *)
Definition apply_set (fields : doc) (d : doc) : doc := fields ∪ d.

(** Rewrite the first document that matches; the count of matches. *)
Fixpoint update_first (query fields : doc) (l : list doc) : nat * list doc :=
  match l with
  | [] => (0%nat, [])
  | d :: l' =>
      if matches query d then (1%nat, apply_set fields d :: l')
      else let '(n, r) := update_first query fields l' in (n, d :: r)
  end.

(** [db.c.update_one(query, {"$set": fields})], giving [matched_count]. *)
Definition update_one (c : collection) (query fields : doc) : Handler nat :=
  λ db,
    let '(n, l) := update_first query fields (get_coll c db) in
    (Ok n, set_coll c l db).

Fixpoint delete_first (query : doc) (l : list doc) : nat * list doc :=
  match l with
  | [] => (0%nat, [])
  | d :: l' =>
      if matches query d then (1%nat, l')
      else let '(n, r) := delete_first query l' in (n, d :: r)
  end.

(** [db.c.delete_one(query)], giving [deleted_count]. *)
Definition delete_one (c : collection) (query : doc) : Handler nat :=
  λ db,
    let '(n, l) := delete_first query (get_coll c db) in
    (Ok n, set_coll c l db).

End Mongo.

(** ** Environment and libraries *)

(** [os.environ]: the configuration read when the module is loaded. *)
Record Environment : Type := {
  JWT_SECRET : string;
  ADMIN_USERNAME : string;
  ADMIN_PASSWORD : string
}.

(** Claims of a token: the dictionary given to [jwt.encode]. *)
Abbreviation claims := (gmap string value).

Inductive jwt_outcome : Type :=
  | Decoded (payload : claims)
  | ExpiredSignatureError
  | InvalidTokenError.

(** PyJWT with the HS256 algorithm.  [jwt_decode token key now] is
    [jwt.decode(token, key, algorithms=["HS256"])] when the clock reads
    [now]; every failure other than expiry is an [InvalidTokenError]. *)
Class PyJWT : Type := {
  jwt_encode : claims → string → string;
  jwt_decode : string → string → Z → jwt_outcome
}.

(** What PyJWT promises about a token it has signed with the same key: a
    [datetime] under ["exp"] is stored as a number, the token decodes to the
    encoded claims while the clock is before ["exp"], and it is expired
    from ["exp"] on. *)
Class PyJWTSpec (J : PyJWT) : Prop := {
  jwt_decode_encode_live : ∀ (payload : claims) key (exp now : Z),
    payload !! "exp" = Some (VDate exp) → now < exp →
    jwt_decode (jwt_encode payload key) key now
      = Decoded (<["exp" := VInt exp]> payload);
  jwt_decode_encode_expired : ∀ (payload : claims) key (exp now : Z),
    payload !! "exp" = Some (VDate exp) → exp ≤ now →
    jwt_decode (jwt_encode payload key) key now = ExpiredSignatureError
}.

(** [datetime.isoformat] and [datetime.fromisoformat]; the latter raises
    [ValueError] on a string it cannot read. *)
Class Datetime : Type := {
  isoformat : Z → string;
  fromisoformat : string → option Z
}.

(** pydantic's conversion of a stored value to a field of type [int] or
    [str]; [None] is a validation error. *)
Class Pydantic : Type := {
  to_int : value → option Z;
  to_str : value → option string
}.

(** The calls of one request to [uuid.uuid4()] and to
    [datetime.now(timezone.utc)], numbered in the order they are made, and
    the clock PyJWT reads when it checks a token. *)
Record Entropy : Type := {
  uuid4 : nat → string;
  utcnow : nat → Z;
  jwt_clock : Z
}.

Definition hours (n : Z) : Z := n * 3600.

(** ** Models *)

Module WarStatistic.
Record t : Type := mk {
  id : string;
  opponent : string;
  wins : Z;
  losses : Z;
  order : Z
}.

Definition model_dump (w : t) : doc :=
  {[ "id" := VStr (id w); "opponent" := VStr (opponent w);
     "wins" := VInt (wins w); "losses" := VInt (losses w);
     "order" := VInt (order w) ]}.

(** [WarStatistic] built from a stored document [d] passed as keyword
    arguments: unknown keys are ignored ([extra="ignore"]), every
    field required except [id], which falls back to a new uuid. *)
Definition validate `{Pydantic} (fresh_id : string) (d : doc) : result t :=
  match (match d !! "id" with
         | Some v => to_str v
         | None => Some fresh_id
         end),
        d !! "opponent" ≫= to_str,
        d !! "wins" ≫= to_int,
        d !! "losses" ≫= to_int,
        d !! "order" ≫= to_int with
  | Some i, Some o, Some w, Some l, Some r => Ok (mk i o w l r)
  | _, _, _, _, _ => Raise ValidationError
  end.
End WarStatistic.

Module WarStatisticCreate.
Record t : Type := mk {
  opponent : string;
  wins : Z;
  losses : Z;
  order : Z
}.

(** The class's field defaults: [wins], [losses] and [order] are [0]
    when the request body leaves them out. *)
Definition parse (opponent : string) (wins losses order : option Z) : t :=
  mk opponent (default 0 wins) (default 0 losses) (default 0 order).
End WarStatisticCreate.

Module WarStatisticUpdate.
Record t : Type := mk {
  opponent : option string;
  wins : option Z;
  losses : option Z;
  order : option Z
}.

Definition opt (f : option value) : value := default VNull f.

Definition model_dump (u : t) : doc :=
  {[ "opponent" := opt (VStr <$> opponent u);
     "wins" := opt (VInt <$> wins u);
     "losses" := opt (VInt <$> losses u);
     "order" := opt (VInt <$> order u) ]}.
End WarStatisticUpdate.

Module GalleryImage.
Record t : Type := mk {
  id : string;
  image_url : string;
  created_at : Z
}.

Definition model_dump (g : t) : doc :=
  {[ "id" := VStr (id g); "image_url" := VStr (image_url g);
     "created_at" := VDate (created_at g) ]}.
End GalleryImage.

Module GalleryImageCreate.
Record t : Type := mk { image_url : string }.
End GalleryImageCreate.

Module Testimonial.
Record t : Type := mk {
  id : string;
  author_name : option string;
  content : string;
  approved : bool;
  created_at : Z
}.

Definition model_dump (x : t) : doc :=
  {[ "id" := VStr (id x);
     "author_name" := default VNull (VStr <$> author_name x);
     "content" := VStr (content x);
     "approved" := VBool (approved x);
     "created_at" := VDate (created_at x) ]}.
End Testimonial.

Module TestimonialCreate.
Record t : Type := mk {
  author_name : option string;
  content : string
}.

Definition default_author_name : string := "Анонимный воин".

(** A field of the request body is left out or given; a given
    [Optional[str]] is a string or JSON [null]. *)
Inductive field (A : Type) : Type := Omitted | Given (a : A).
Arguments Omitted {A}.
Arguments Given {A} a.

Definition parse (author_name : field (option string)) (content : string) : t :=
  mk (match author_name with
      | Omitted => Some default_author_name
      | Given a => a
      end) content.
End TestimonialCreate.

Module AdminLogin.
Record t : Type := mk { username : string; password : string }.
End AdminLogin.

Module AdminToken.
Record t : Type := mk { access_token : string; token_type : string }.
Definition new (access_token : string) : t := mk access_token "bearer".
End AdminToken.

(** [HTTPBearer()]: a request without bearer credentials is rejected by
    the framework before any dependency of the route runs. *)
Class HTTPBearer : Type := {
  not_authenticated_status : Z
}.

(** The routes of [api_router], with the path and query parameters and
    the validated body of a request. *)
Inductive request : Type :=
  | POST_auth_login (login_data : AdminLogin.t)
  | GET_leaders
  | GET_wars
  | POST_wars (war_data : WarStatisticCreate.t)
  | PUT_wars (war_id : string) (war_data : WarStatisticUpdate.t)
  | DELETE_wars (war_id : string)
  | GET_gallery
  | POST_gallery (image_data : GalleryImageCreate.t)
  | DELETE_gallery (image_id : string)
  | GET_testimonials (approved_only : option bool)
  | POST_testimonials (testimonial_data : TestimonialCreate.t)
  | PUT_testimonials_approve (testimonial_id : string)
  | DELETE_testimonials (testimonial_id : string)
  | GET_admin_stats
  | POST_initialize.

(** What a handler returns. *)
Inductive response : Type :=
  | RToken (t : AdminToken.t)
  | RDocs (l : list doc)
  | RWar (w : WarStatistic.t)
  | RImage (g : GalleryImage.t)
  | RTestimonial (x : Testimonial.t)
  | RMessage (message : string)
  | RDict (d : doc).

Section Server.
Context (env : Environment) `{PyJWT} `{Datetime} `{Pydantic} `{HTTPBearer}.
Context (rnd : Entropy).

(** ** Auth *)

Definition create_access_token (data : claims) (expires_delta : Z) : string :=
  let to_encode := data in
  let expire := utcnow rnd 0 + expires_delta in
  let to_encode := <["exp" := VDate expire]> to_encode in
  jwt_encode to_encode (JWT_SECRET env).

Definition verify_token (credentials : string) : result claims :=
  match jwt_decode credentials (JWT_SECRET env) (jwt_clock rnd) with
  | Decoded payload => Ok payload
  | ExpiredSignatureError =>
      Raise (HTTPException HTTP_401_UNAUTHORIZED "Token expired")
  | InvalidTokenError =>
      Raise (HTTPException HTTP_401_UNAUTHORIZED "Invalid token")
  end.

(** [security]: the bearer credentials of the request, if it has any. *)
Definition security (authorization : option string) : result string :=
  match authorization with
  | Some credentials => Ok credentials
  | None => Raise (HTTPException not_authenticated_status "Not authenticated")
  end.

(** [token: dict = Depends(verify_token)] *)
Definition Depends_verify_token (authorization : option string) : Handler claims :=
  λ db,
    match security authorization with
    | Ok credentials => (verify_token credentials, db)
    | Raise e => (Raise e, db)
    end.

(** ** Routes *)

Definition admin_login (login_data : AdminLogin.t) : Handler AdminToken.t :=
  if bool_decide (AdminLogin.username login_data = ADMIN_USERNAME env)
     && bool_decide (AdminLogin.password login_data = ADMIN_PASSWORD env)
  then
    let access_token :=
      create_access_token
        {[ "sub" := VStr (AdminLogin.username login_data); "role" := VStr "admin" ]}
        (hours 24) in
    ret (AdminToken.new access_token)
  else raise (HTTPException HTTP_401_UNAUTHORIZED "Invalid credentials").

Definition get_leaders : Handler (list doc) :=
  Mongo.find_sort_to_list Leaders ∅ "order" Mongo.Ascending 100.

Definition get_wars : Handler (list doc) :=
  Mongo.find_sort_to_list Wars ∅ "order" Mongo.Ascending 100.

Definition create_war (war_data : WarStatisticCreate.t) (token : claims)
  : Handler WarStatistic.t :=
  let war_obj :=
    WarStatistic.mk (uuid4 rnd 0)
      (WarStatisticCreate.opponent war_data) (WarStatisticCreate.wins war_data)
      (WarStatisticCreate.losses war_data) (WarStatisticCreate.order war_data) in
  let doc := WarStatistic.model_dump war_obj in
  let! _ := Mongo.insert_one Wars doc in
  ret war_obj.

(** Python's [not existing] for the result of [find_one]. *)
Definition not_ (existing : option doc) : bool :=
  match existing with
  | None => true
  | Some d => bool_decide (d = ∅)
  end.

Definition update_war (war_id : string) (war_data : WarStatisticUpdate.t)
    (token : claims) : Handler WarStatistic.t :=
  let! existing := Mongo.find_one Wars {[ "id" := VStr war_id ]} in
  if not_ existing then raise (HTTPException 404 "War not found")
  else
    let update_data : doc :=
      filter (λ kv, kv.2 ≠ VNull) (WarStatisticUpdate.model_dump war_data) in
    let! _ :=
      (if bool_decide (update_data = ∅) then ret 0%nat
       else Mongo.update_one Wars {[ "id" := VStr war_id ]} update_data) in
    let! updated := Mongo.find_one Wars {[ "id" := VStr war_id ]} in
    match updated with
    | None => raise TypeError
    | Some updated =>
        match WarStatistic.validate (uuid4 rnd 0) updated with
        | Ok w => ret w
        | Raise e => raise e
        end
    end.

Definition delete_war (war_id : string) (token : claims) : Handler string :=
  let! deleted_count := Mongo.delete_one Wars {[ "id" := VStr war_id ]} in
  if (deleted_count =? 0)%nat then raise (HTTPException 404 "War not found")
  else ret "War deleted successfully".

(** The loop that turns a stored ISO string under ["created_at"] back
    into a datetime. *)
Definition revive_created_at (d : doc) : result doc :=
  match d !! "created_at" with
  | Some (VStr s) =>
      match fromisoformat s with
      | Some t => Ok (<["created_at" := VDate t]> d)
      | None => Raise ValueError
      end
  | _ => Ok d
  end.

Fixpoint revive_all (l : list doc) : result (list doc) :=
  match l with
  | [] => Ok []
  | d :: l' =>
      match revive_created_at d with
      | Raise e => Raise e
      | Ok d' =>
          match revive_all l' with
          | Raise e => Raise e
          | Ok r => Ok (d' :: r)
          end
      end
  end.

Definition lift {A} (r : result A) : Handler A := λ db, (r, db).

Definition get_gallery : Handler (list doc) :=
  let! images := Mongo.find_sort_to_list Gallery ∅ "created_at" Mongo.Descending 100 in
  lift (revive_all images).

(** [doc['created_at'] = doc['created_at'].isoformat()] *)
Definition isoformat_created_at (d : doc) : doc :=
  match d !! "created_at" with
  | Some (VDate t) => <["created_at" := VStr (isoformat t)]> d
  | _ => d
  end.

Definition add_gallery_image (image_data : GalleryImageCreate.t) (token : claims)
  : Handler GalleryImage.t :=
  let image_obj :=
    GalleryImage.mk (uuid4 rnd 0) (GalleryImageCreate.image_url image_data)
      (utcnow rnd 0) in
  let doc := isoformat_created_at (GalleryImage.model_dump image_obj) in
  let! _ := Mongo.insert_one Gallery doc in
  ret image_obj.

Definition delete_gallery_image (image_id : string) (token : claims) : Handler string :=
  let! deleted_count := Mongo.delete_one Gallery {[ "id" := VStr image_id ]} in
  if (deleted_count =? 0)%nat then raise (HTTPException 404 "Image not found")
  else ret "Image deleted successfully".

Definition get_testimonials (approved_only : bool) : Handler (list doc) :=
  let query : doc := if approved_only then {[ "approved" := VBool true ]} else ∅ in
  let! testimonials :=
    Mongo.find_sort_to_list Testimonials query "created_at" Mongo.Descending 100 in
  lift (revive_all testimonials).

Definition create_testimonial (testimonial_data : TestimonialCreate.t)
  : Handler Testimonial.t :=
  let testimonial_obj :=
    Testimonial.mk (uuid4 rnd 0)
      (TestimonialCreate.author_name testimonial_data)
      (TestimonialCreate.content testimonial_data)
      false (utcnow rnd 0) in
  let doc := isoformat_created_at (Testimonial.model_dump testimonial_obj) in
  let! _ := Mongo.insert_one Testimonials doc in
  ret testimonial_obj.

Definition approve_testimonial (testimonial_id : string) (token : claims)
  : Handler string :=
  let! matched_count :=
    Mongo.update_one Testimonials {[ "id" := VStr testimonial_id ]}
      {[ "approved" := VBool true ]} in
  if (matched_count =? 0)%nat then raise (HTTPException 404 "Testimonial not found")
  else ret "Testimonial approved".

Definition delete_testimonial (testimonial_id : string) (token : claims)
  : Handler string :=
  let! deleted_count := Mongo.delete_one Testimonials {[ "id" := VStr testimonial_id ]} in
  if (deleted_count =? 0)%nat then raise (HTTPException 404 "Testimonial not found")
  else ret "Testimonial deleted successfully".

Definition get_admin_stats (token : claims) : Handler doc :=
  let! total_testimonials := Mongo.count_documents Testimonials ∅ in
  let! pending_testimonials :=
    Mongo.count_documents Testimonials {[ "approved" := VBool false ]} in
  let! approved_testimonials :=
    Mongo.count_documents Testimonials {[ "approved" := VBool true ]} in
  let! total_wars := Mongo.count_documents Wars ∅ in
  let! total_gallery := Mongo.count_documents Gallery ∅ in
  ret ({[ "total_testimonials" := VInt (Z.of_nat total_testimonials);
          "pending_testimonials" := VInt (Z.of_nat pending_testimonials);
          "approved_testimonials" := VInt (Z.of_nat approved_testimonials);
          "total_wars" := VInt (Z.of_nat total_wars);
          "total_gallery" := VInt (Z.of_nat total_gallery) ]} : doc).

(** ** Bootstrap *)

Definition leader_doc (id name title description image_url : string) (order : Z) : doc :=
  {[ "id" := VStr id; "name" := VStr name; "title" := VStr title;
     "description" := VStr description; "image_url" := VStr image_url;
     "order" := VInt order ]}.

Definition war_doc (id opponent : string) (wins losses order : Z) : doc :=
  {[ "id" := VStr id; "opponent" := VStr opponent; "wins" := VInt wins;
     "losses" := VInt losses; "order" := VInt order ]}.

Definition gallery_doc (id image_url created_at : string) : doc :=
  {[ "id" := VStr id; "image_url" := VStr image_url;
     "created_at" := VStr created_at ]}.

Definition artifacts : string :=
  "https://customer-assets.emergentagent.com/job_e7a85aa0-8f83-447e-897d-d6a37e1483e7/artifacts/".

Definition seed_leaders : list doc :=
  [ leader_doc (uuid4 rnd 0) "Вергилий" "Основатель клана"
      "Мудрый лидер и символ чести клана PORTUGAL. Основал легенду."
      (artifacts +:+ "nrlemlvl_image.png") 1;
    leader_doc (uuid4 rnd 1) "Астер" "Главнокомандующий клана"
      "Стратег и герой Португалии. Ведёт клан к великим победам."
      (artifacts +:+ "bnfzign7_image.png") 2;
    leader_doc (uuid4 rnd 2) "Денис" "Герцог Браги"
      "Элитный воин и правая рука Астера. Непобедим в бою."
      (artifacts +:+ "4im444p4_image.png") 3 ].

Definition seed_wars : list doc :=
  [ war_doc (uuid4 rnd 3) "Монголия и Казахи" 11 1 1;
    war_doc (uuid4 rnd 4) "Франция" 6 0 2;
    war_doc (uuid4 rnd 5) "Рим" 4 4 3;
    war_doc (uuid4 rnd 6) "ДжК" 1 5 4;
    war_doc (uuid4 rnd 7) "Англия" 0 1 5;
    war_doc (uuid4 rnd 8) "ОУ" 2 0 6 ].

Definition seed_gallery : list doc :=
  [ gallery_doc (uuid4 rnd 9) (artifacts +:+ "nrlemlvl_image.png")
      (isoformat (utcnow rnd 0));
    gallery_doc (uuid4 rnd 10) (artifacts +:+ "bnfzign7_image.png")
      (isoformat (utcnow rnd 1));
    gallery_doc (uuid4 rnd 11) (artifacts +:+ "4im444p4_image.png")
      (isoformat (utcnow rnd 2));
    gallery_doc (uuid4 rnd 12) (artifacts +:+ "rsdp2wa0_image.png")
      (isoformat (utcnow rnd 3)) ].

Definition initialize_data : Handler string :=
  let! existing_leaders := Mongo.count_documents Leaders ∅ in
  if (0 <? existing_leaders)%nat then ret "Database already initialized"
  else
    let! _ := Mongo.insert_many Leaders seed_leaders in
    let! _ := Mongo.insert_many Wars seed_wars in
    let! _ := Mongo.insert_many Gallery seed_gallery in
    ret "Database initialized successfully".

(** ** The router *)

(** A route declared with [token: dict = Depends(verify_token)]: the
    dependency runs first and the handler only when it returns. *)
Definition gated {A} (authorization : option string) (h : claims → Handler A)
  : Handler A :=
  let! token := Depends_verify_token authorization in
  h token.

Definition fmap_handler {A B} (f : A → B) (h : Handler A) : Handler B :=
  let! a := h in ret (f a).

Definition api_router (authorization : option string) (req : request)
  : Handler response :=
  match req with
  | POST_auth_login login_data => fmap_handler RToken (admin_login login_data)
  | GET_leaders => fmap_handler RDocs get_leaders
  | GET_wars => fmap_handler RDocs get_wars
  | POST_wars war_data =>
      fmap_handler RWar (gated authorization (create_war war_data))
  | PUT_wars war_id war_data =>
      fmap_handler RWar (gated authorization (update_war war_id war_data))
  | DELETE_wars war_id =>
      fmap_handler RMessage (gated authorization (delete_war war_id))
  | GET_gallery => fmap_handler RDocs get_gallery
  | POST_gallery image_data =>
      fmap_handler RImage (gated authorization (add_gallery_image image_data))
  | DELETE_gallery image_id =>
      fmap_handler RMessage (gated authorization (delete_gallery_image image_id))
  | GET_testimonials approved_only =>
      fmap_handler RDocs (get_testimonials (default true approved_only))
  | POST_testimonials testimonial_data =>
      fmap_handler RTestimonial (create_testimonial testimonial_data)
  | PUT_testimonials_approve testimonial_id =>
      fmap_handler RMessage (gated authorization (approve_testimonial testimonial_id))
  | DELETE_testimonials testimonial_id =>
      fmap_handler RMessage (gated authorization (delete_testimonial testimonial_id))
  | GET_admin_stats => fmap_handler RDict (gated authorization get_admin_stats)
  | POST_initialize => fmap_handler RMessage initialize_data
  end.
End Server.

(** ** A concrete environment

    Instances of the interfaces above, so that the handlers can be run on
    concrete requests.  A token is a binary numeral that codes the claims
    together with the signing key. *)

Module Reference.

Fixpoint pos_to_string (p : positive) : string :=
  match p with
  | xH => EmptyString
  | xO q => String "0"%char (pos_to_string q)
  | xI q => String "1"%char (pos_to_string q)
  end.

Fixpoint string_to_pos (s : string) : option positive :=
  match s with
  | EmptyString => Some xH
  | String c s' =>
      if Ascii.eqb c "0"%char then xO <$> string_to_pos s'
      else if Ascii.eqb c "1"%char then xI <$> string_to_pos s'
      else None
  end.

Definition value_to_sum (v : value) : unit + bool + Z + string + Z + N :=
  match v with
  | VNull => inl (inl (inl (inl (inl tt))))
  | VBool b => inl (inl (inl (inl (inr b))))
  | VInt z => inl (inl (inl (inr z)))
  | VStr s => inl (inl (inr s))
  | VDate t => inl (inr t)
  | VOid n => inr n
  end.

Definition sum_to_value (x : unit + bool + Z + string + Z + N) : value :=
  match x with
  | inl (inl (inl (inl (inl _)))) => VNull
  | inl (inl (inl (inl (inr b)))) => VBool b
  | inl (inl (inl (inr z))) => VInt z
  | inl (inl (inr s)) => VStr s
  | inl (inr t) => VDate t
  | inr n => VOid n
  end.

#[global] Program Instance value_countable : Countable value :=
  inj_countable' value_to_sum sum_to_value _.
Next Obligation. by intros []. Qed.

(** PyJWT stores a datetime under a registered time claim as a number. *)
Definition numeric_date (payload : claims) (k : string) : claims :=
  match payload !! k with
  | Some (VDate t) => <[k := VInt t]> payload
  | _ => payload
  end.

Definition env : Environment :=
  {| JWT_SECRET := "s3cret"; ADMIN_USERNAME := "admin"; ADMIN_PASSWORD := "portugal" |}.

#[global] Instance jwt : PyJWT :=
  {| jwt_encode payload key :=
       pos_to_string (encode (numeric_date payload "exp", key));
     jwt_decode token key now :=
       match string_to_pos token ≫= decode with
       | Some (payload, k) =>
           if bool_decide (k = key) then
             match (payload : claims) !! "exp" with
             | None => Decoded payload
             | Some (VInt exp) =>
                 if exp <=? now then ExpiredSignatureError else Decoded payload
             | Some _ => InvalidTokenError
             end
           else InvalidTokenError
       | None => InvalidTokenError
       end |}.

#[global] Instance datetime : Datetime :=
  {| isoformat t := pos_to_string (encode t);
     fromisoformat s := string_to_pos s ≫= decode |}.

#[global] Instance pydantic : Pydantic :=
  {| to_int v := match v with VInt z => Some z | _ => None end;
     to_str v := match v with VStr s => Some s | _ => None end |}.

#[global] Instance bearer : HTTPBearer := {| not_authenticated_status := 403 |}.

(** One request's worth of uuids and clock readings: the [n]-th uuid is
    the numeral of [n], the clock stands at [1000]. *)
Definition rnd : Entropy :=
  {| uuid4 n := pos_to_string (Pos.of_succ_nat n);
     utcnow _ := 1000;
     jwt_clock := 1000 |}.

End Reference.

(** ** Vocabulary of the statements *)

(** A document carries the application-level identifier [i]. *)
Definition has_id (i : string) (d : doc) : Prop := d !! "id" = Some (VStr i).

#[global] Instance has_id_dec i d : Decision (has_id i d).
Proof. unfold has_id. apply _. Defined.

(** [l] splits at its first document with identifier [i]. *)
Definition first_with_id (i : string) (l l1 : list doc) (d : doc) (l2 : list doc) : Prop :=
  l = l1 ++ d :: l2 ∧ Forall (λ x, ¬ has_id i x) l1 ∧ has_id i d.

(** The value a partial-update request provides for field [k], if any. *)
Definition patch_field (u : WarStatisticUpdate.t) (k : string) : option value :=
  if decide (k = "opponent") then VStr <$> WarStatisticUpdate.opponent u
  else if decide (k = "wins") then VInt <$> WarStatisticUpdate.wins u
  else if decide (k = "losses") then VInt <$> WarStatisticUpdate.losses u
  else if decide (k = "order") then VInt <$> WarStatisticUpdate.order u
  else None.

Definition update_data_of (u : WarStatisticUpdate.t) : doc :=
  filter (λ kv, kv.2 ≠ VNull) (WarStatisticUpdate.model_dump u).

(** [h] deletes by identifier from collection [c]: 404 with [detail] and
    no change when no document has the identifier, otherwise [message] and
    the collection without the first document that has it. *)
Definition deletes_by_id (c : collection) (h : string → claims → Handler string)
    (detail message : string) : Prop :=
  ∀ (i : string) (token : claims) (db : DB),
    (Forall (λ d, ¬ has_id i d) (get_coll c db) →
       h i token db = (Raise (HTTPException 404 detail), db))
    ∧ (Exists (has_id i) (get_coll c db) →
       ∃ l1 d l2, first_with_id i (get_coll c db) l1 d l2
         ∧ h i token db = (Ok message, set_coll c (l1 ++ l2) db)).

(** Sample documents and stores used to exercise the statements. *)
Definition sample_war (i : string) (wins : Z) : doc :=
  {[ "_id" := VOid 7; "id" := VStr i; "opponent" := VStr "Spain";
     "wins" := VInt wins; "losses" := VInt 1; "order" := VInt 7 ]}.

Definition sample_db : DB :=
  mkDB [] [sample_war "w1" 3; sample_war "w2" 5]
       [ {[ "id" := VStr "g1"; "image_url" := VStr "a.png";
            "created_at" := VStr (isoformat 5) ]} ]
       [ {[ "id" := VStr "t1"; "content" := VStr "Boa!"; "approved" := VBool false;
            "created_at" := VStr (isoformat 6) ]} ]
       9.


(** The request carries bearer credentials that PyJWT decodes under the
    configured secret at the time of the request. *)
Definition carries_valid_token (env : Environment) `{PyJWT} (rnd : Entropy)
    (authorization : option string) : Prop :=
  ∃ credentials payload,
    authorization = Some credentials
    ∧ jwt_decode credentials (JWT_SECRET env) (jwt_clock rnd) = Decoded payload.

(** The routes declared with [Depends(verify_token)] that write to the
    store. *)
Definition gated_mutation (req : request) : bool :=
  match req with
  | POST_wars _ | PUT_wars _ _ | DELETE_wars _
  | POST_gallery _ | DELETE_gallery _
  | PUT_testimonials_approve _ | DELETE_testimonials _ => true
  | _ => false
  end.

(** Every mutating route other than testimonial creation: the gated ones
    and the bootstrap. *)
Definition mutation_other_than_testimonial_creation (req : request) : bool :=
  match req with
  | POST_initialize => true
  | _ => gated_mutation req
  end.

(** Route [req] refuses a request without a valid token and leaves the
    store alone: 401 when a token is presented, the bearer scheme's own
    rejection when none is. *)
Definition refuses_without_token (env : Environment)
    `{PyJWT} `{Datetime} `{Pydantic} `{HTTPBearer} (rnd : Entropy) (req : request) : Prop :=
  ∀ (authorization : option string) (db : DB),
    ¬ carries_valid_token env rnd authorization →
    ∃ e, api_router env rnd authorization req db = (Raise e, db)
         ∧ match authorization with
           | Some _ => ∃ detail, e = HTTPException HTTP_401_UNAUTHORIZED detail
           | None => e = HTTPException not_authenticated_status "Not authenticated"
           end.

(** The documents [ds] as the driver stores them, with consecutive
    ObjectIds from [n] on. *)
Fixpoint with_oids (n : N) (ds : list doc) : list doc :=
  match ds with
  | [] => []
  | d :: ds' => Mongo.with_oid n d :: with_oids (N.succ n) ds'
  end.

(** A returned document has no storage-internal identifier. *)
Definition no_internal_id (d : doc) : Prop := d !! "_id" = None.

(** [res] is the first [n] of the documents [all] when these are put in
    the order given by [key] and [dir]. *)
Definition first_sorted (key : string) (dir : Mongo.direction) (n : nat)
    (all res : list doc) : Prop :=
  ∃ rest, StronglySorted (Mongo.before key dir) (res ++ rest)
          ∧ res ++ rest ≡ₚ all
          ∧ length res = min n (length all).

(** A stored ISO string under ["created_at"], if there is one, is one
    that [fromisoformat] reads; so are all strings the handlers write. *)
Definition created_at_readable `{Datetime} (d : doc) : Prop :=
  ∀ s, d !! "created_at" = Some (VStr s) → is_Some (fromisoformat s).

(** [d'] is [d] after the loop over the listing has parsed its date. *)
Definition revived `{Datetime} (d d' : doc) : Prop := revive_created_at d = Ok d'.

(** The filter of the testimonial listing. *)
Definition visible (approved_only : bool) (d : doc) : Prop :=
  if approved_only then d !! "approved" = Some (VBool true) else True.

#[global] Instance visible_dec approved_only d : Decision (visible approved_only d).
Proof. destruct approved_only; simpl; apply _. Defined.

(** The outcome of a listing that reads collection [c] through the filter
    [P], orders by [key] and [dir] and then parses the dates: it is the
    parse of [res], the first 100 stripped documents in that order, and the
    parse succeeds at least when every stored date is readable. *)
Definition lists_first_100 `{Datetime} (P : doc → Prop) `{∀ d, Decision (P d)}
    (key : string) (dir : Mongo.direction) (c : collection)
    (h : Handler (list doc)) (db : DB) : Prop :=
  ∃ res,
    h db = (revive_all res, db)
    ∧ first_sorted key dir 100 (Mongo.project_no_id <$> filter P (get_coll c db)) res
    ∧ (length res ≤ 100)%nat
    ∧ Forall no_internal_id res
    ∧ (Forall created_at_readable (get_coll c db) →
       ∃ out, revive_all res = Ok out
              ∧ Forall2 revived res out
              ∧ Forall no_internal_id out).

(** The outcome of a listing without date parsing. *)
Definition lists_first_100_as_stored (key : string) (dir : Mongo.direction)
    (c : collection) (h : Handler (list doc)) (db : DB) : Prop :=
  ∃ res,
    h db = (Ok res, db)
    ∧ first_sorted key dir 100 (Mongo.project_no_id <$> get_coll c db) res
    ∧ (length res ≤ 100)%nat
    ∧ Forall no_internal_id res.

(** A store with [n] approved testimonials, numbered from [0]. *)
Definition crowd (n : nat) : list doc :=
  (λ k : nat,
     ({[ "id" := VStr (uuid4 Reference.rnd k); "content" := VStr "Boa!";
         "approved" := VBool true;
         "created_at" := VStr (isoformat (Z.of_nat k)) ]} : doc)) <$> seq 0 n.

Definition crowded_db : DB := mkDB [] [] [] (crowd 101) 101.

(** The store after [insert_one] of [d] into the testimonials. *)
Definition with_testimonial (d : doc) (db : DB) : DB :=
  mkDB (leaders db) (wars db) (gallery db) (testimonials db ++ [d])
       (N.succ (next_oid db)).


(** The store after [insert_one] of [d] into the wars. *)
Definition with_war (d : doc) (db : DB) : DB :=
  mkDB (leaders db) (wars db ++ [d]) (gallery db) (testimonials db)
       (N.succ (next_oid db)).

(** The testimonial document carries a boolean [approved] field. *)
Definition approved_is_bool (d : doc) : Prop :=
  ∃ b, d !! "approved" = Some (VBool b).

(** The testimonials of the store whose [approved] field is [b]. *)
Definition with_approved (b : bool) (db : DB) : list doc :=
  filter (λ d, d !! "approved" = Some (VBool b)) (testimonials db).

(** A store whose leaders collection holds one document. *)
Definition led_db : DB :=
  mkDB [ {[ "id" := VStr "l1"; "name" := VStr "Afonso"; "order" := VInt 1 ]} ]
       [] [] [] 1.

(** ** Laws of the libraries *)

(** pydantic accepts an integer for an [int] field and a string for a
    [str] field as they are. *)
Class PydanticSpec (P : Pydantic) : Prop := {
  to_int_VInt : ∀ z, to_int (VInt z) = Some z;
  to_str_VStr : ∀ s, to_str (VStr s) = Some s
}.

(** [fromisoformat] reads back what [isoformat] writes. *)
Class DatetimeSpec (D : Datetime) : Prop := {
  fromisoformat_isoformat : ∀ t, fromisoformat (isoformat t) = Some t
}.

(** ** Routes and what they touch *)

(** The collections a route may write to. *)
Definition writes (req : request) : list collection :=
  match req with
  | POST_wars _ | PUT_wars _ _ | DELETE_wars _ => [Wars]
  | POST_gallery _ | DELETE_gallery _ => [Gallery]
  | POST_testimonials _ | PUT_testimonials_approve _ | DELETE_testimonials _ =>
      [Testimonials]
  | POST_initialize => [Leaders; Wars; Gallery]
  | POST_auth_login _ | GET_leaders | GET_wars | GET_gallery
  | GET_testimonials _ | GET_admin_stats => []
  end.

Section Gate.
Context (env : Environment) `{PyJWT} `{Datetime} `{Pydantic} `{HTTPBearer}.
Context (rnd : Entropy).

(** The handler behind the gate of a route declared with
    [Depends(verify_token)], as a function of the decoded payload. *)
Definition behind_gate (req : request) : option (claims → Handler response) :=
  match req with
  | POST_wars war_data => Some (λ token, fmap_handler RWar (create_war rnd war_data token))
  | PUT_wars war_id war_data =>
      Some (λ token, fmap_handler RWar (update_war rnd war_id war_data token))
  | DELETE_wars war_id => Some (λ token, fmap_handler RMessage (delete_war war_id token))
  | POST_gallery image_data =>
      Some (λ token, fmap_handler RImage (add_gallery_image rnd image_data token))
  | DELETE_gallery image_id =>
      Some (λ token, fmap_handler RMessage (delete_gallery_image image_id token))
  | PUT_testimonials_approve testimonial_id =>
      Some (λ token, fmap_handler RMessage (approve_testimonial testimonial_id token))
  | DELETE_testimonials testimonial_id =>
      Some (λ token, fmap_handler RMessage (delete_testimonial testimonial_id token))
  | GET_admin_stats => Some (λ token, fmap_handler RDict (get_admin_stats token))
  | _ => None
  end.
End Gate.

(** A war record after a partial update: each field the request provides
    replaces the old one. *)
Definition patched (u : WarStatisticUpdate.t) (w : WarStatistic.t) : WarStatistic.t :=
  WarStatistic.mk (WarStatistic.id w)
    (default (WarStatistic.opponent w) (WarStatisticUpdate.opponent u))
    (default (WarStatistic.wins w) (WarStatisticUpdate.wins u))
    (default (WarStatistic.losses w) (WarStatisticUpdate.losses u))
    (default (WarStatistic.order w) (WarStatisticUpdate.order u)).

(** The application-level identifiers of the documents of a collection. *)
Definition ids (l : list doc) : list value := omap (λ d : doc, d !! "id") l.

(** A handler leaves the store as it finds it, whatever it returns. *)
Definition read_only {A} (h : Handler A) : Prop := ∀ db, (h db).2 = db.

(** A handler leaves every collection outside [cs] as it finds it. *)
Definition writes_within {A} (cs : list collection) (h : Handler A) : Prop :=
  ∀ db c, c ∉ cs → get_coll c (h db).2 = get_coll c db.

(** Two tokens signed with the reference secret, with different claims. *)
Definition guest_token : string :=
  jwt_encode ({[ "exp" := VDate 2000; "sub" := VStr "eve"; "role" := VStr "guest" ]} : claims)
    "s3cret".

Definition admin_token : string :=
  jwt_encode ({[ "exp" := VDate 3000; "sub" := VStr "admin"; "role" := VStr "admin" ]} : claims)
    "s3cret".

(** The clock a day and a bit after the reference clock. *)
Definition next_day : Entropy :=
  {| uuid4 := uuid4 Reference.rnd; utcnow _ := 90000; jwt_clock := 90000 |}.

(** The partial update that provides nothing. *)
Definition empty_update : WarStatisticUpdate.t :=
  WarStatisticUpdate.mk None None None None.

(** A store whose only war document lacks the [opponent] field. *)
Definition broken_war : doc :=
  {[ "_id" := VOid 0; "id" := VStr "w0"; "wins" := VInt 1; "losses" := VInt 0;
     "order" := VInt 1 ]}.

Definition broken_db : DB := mkDB [] [broken_war] [] [] 1.

(** A store whose only gallery document has a date nobody can read. *)
Definition undated_db : DB :=
  mkDB [] []
       [ {[ "id" := VStr "g0"; "image_url" := VStr "a.png";
            "created_at" := VStr "yesterday" ]} ]
       [] 1.

(** The dictionary the admin stats return for the given counts. *)
Definition stats_doc (total pending approved total_wars total_gallery : nat) : doc :=
  {[ "total_testimonials" := VInt (Z.of_nat total);
     "pending_testimonials" := VInt (Z.of_nat pending);
     "approved_testimonials" := VInt (Z.of_nat approved);
     "total_wars" := VInt (Z.of_nat total_wars);
     "total_gallery" := VInt (Z.of_nat total_gallery) ]}.

(** ** What a listing owes its caller about dates *)

(** [d'] is the stored document [d] with its date read: every field other
    than ["created_at"] is as stored; a string stored under ["created_at"]
    has been read by [fromisoformat] and replaced by the datetime it
    denotes; anything else stored there, or nothing, is left as it is. *)
Definition parsed_date `{Datetime} (d d' : doc) : Prop :=
  (∀ k, k ≠ "created_at" → d' !! k = d !! k)
  ∧ match d !! "created_at" with
    | Some (VStr s) =>
        ∃ t, fromisoformat s = Some t ∧ d' !! "created_at" = Some (VDate t)
    | stored => d' !! "created_at" = stored
    end.

(** The outcome of a listing that reads collection [c] through the filter
    [P] and orders by [key] and [dir]: [res] is the first 100 stripped
    documents in that order.  When every stored date is readable the
    listing returns them with their dates read.  Whatever it returns, the
    store is as before; a returned list is [res] with the dates read, and
    the only failure is a [ValueError] for an unreadable date in [res]. *)
Definition lists_first_100_parsed `{Datetime} (P : doc → Prop) `{∀ d, Decision (P d)}
    (key : string) (dir : Mongo.direction) (c : collection)
    (h : Handler (list doc)) (db : DB) : Prop :=
  ∃ res,
    first_sorted key dir 100 (Mongo.project_no_id <$> filter P (get_coll c db)) res
    ∧ (length res ≤ 100)%nat
    ∧ Forall no_internal_id res
    ∧ (Forall created_at_readable (get_coll c db) →
       ∃ out, h db = (Ok out, db)
              ∧ Forall2 parsed_date res out
              ∧ Forall no_internal_id out)
    ∧ (∀ r db', h db = (r, db') →
         db' = db
         ∧ match r with
           | Ok out => Forall2 parsed_date res out ∧ Forall no_internal_id out
           | Raise e => e = ValueError ∧ ¬ Forall created_at_readable res
           end).

(** A calendar of three days, to run the listings on dates one can read. *)
Module Calendar.
Definition days : list (string * Z) :=
  [ ("2024-01-01T00:00:00+00:00", 1704067200);
    ("2024-01-02T00:00:00+00:00", 1704153600);
    ("2024-01-03T00:00:00+00:00", 1704240000) ].

Definition datetime : Datetime :=
  {| isoformat t :=
       default EmptyString (fst <$> find (λ p, bool_decide (p.2 = t)) days);
     fromisoformat s := snd <$> find (λ p, bool_decide (p.1 = s)) days |}.
End Calendar.

Definition dated_image (oid : N) (i day : string) : doc :=
  {[ "_id" := VOid oid; "id" := VStr i; "image_url" := VStr (i +:+ ".png");
     "created_at" := VStr day ]}.

(** A gallery of three images, stored in the order 2 January, 3 January,
    1 January. *)
Definition dated_db : DB :=
  mkDB [] []
       [ dated_image 0 "g2" "2024-01-02T00:00:00+00:00";
         dated_image 1 "g3" "2024-01-03T00:00:00+00:00";
         dated_image 2 "g1" "2024-01-01T00:00:00+00:00" ]
       [] 3.

(** A gallery of [n] images, numbered from [0]. *)
Definition many_images (n : nat) : list doc :=
  (λ k : nat,
     ({[ "_id" := VOid (N.of_nat k); "id" := VStr (uuid4 Reference.rnd k);
         "image_url" := VStr "a.png";
         "created_at" := VStr (isoformat (Z.of_nat k)) ]} : doc)) <$> seq 0 n.

Definition crowded_gallery_db : DB := mkDB [] [] (many_images 101) [] 101.

(** * Properties *)

(** ** The monad *)

Lemma bind_ret {A B} (a : A) (k : A → Handler B) db : bind (ret a) k db = k a db.
Proof. reflexivity. Qed.

Lemma bind_raise {A B} e (k : A → Handler B) db : bind (raise e) k db = (Raise e, db).
Proof. reflexivity. Qed.

(** ** Reference instances *)

Lemma string_to_pos_to_string p :
  Reference.string_to_pos (Reference.pos_to_string p) = Some p.
Proof. induction p as [q IH|q IH|]; simpl; [by rewrite IH..|done]. Qed.

Lemma reference_fromisoformat t : fromisoformat (isoformat t) = Some t.
Proof.
  unfold fromisoformat, isoformat, Reference.datetime.
  rewrite string_to_pos_to_string. simpl. apply decode_encode.
Qed.

#[global] Instance reference_datetime_spec : DatetimeSpec Reference.datetime.
Proof. split. apply reference_fromisoformat. Qed.

#[global] Instance reference_pydantic_spec : PydanticSpec Reference.pydantic.
Proof. by split. Qed.

#[global] Instance reference_jwt_spec : PyJWTSpec Reference.jwt.
Proof.
  split; intros payload key exp now Hexp Hnow; simpl;
    rewrite string_to_pos_to_string; simpl; rewrite decode_encode; simpl;
    rewrite bool_decide_true by done;
    unfold Reference.numeric_date; rewrite Hexp, lookup_insert_eq.
  - by rewrite (proj2 (Z.leb_gt exp now)) by lia.
  - by rewrite (proj2 (Z.leb_le exp now)) by lia.
Qed.

(** ** The store *)


Section store_facts.
Implicit Types (d : doc) (l : list doc) (q : doc).

Lemma matches_empty d : Mongo.matches ∅ d = true.
Proof. apply bool_decide_eq_true, map_Forall_empty. Qed.

Lemma matches_singleton k v d : Mongo.matches {[k := v]} d = true ↔ d !! k = Some v.
Proof.
  unfold Mongo.matches. rewrite bool_decide_eq_true.
  apply (map_Forall_singleton (λ k v, d !! k = Some v)).
Qed.

Lemma matches_id i d : Mongo.matches {[ "id" := VStr i ]} d = true ↔ has_id i d.
Proof. apply matches_singleton. Qed.

Lemma matches_id_false i d : ¬ has_id i d → Mongo.matches {[ "id" := VStr i ]} d = false.
Proof.
  intros Hn. destruct (Mongo.matches _ d) eqn:E; [|done].
  by apply matches_id in E.
Qed.

Lemma filter_matches_empty l : filter (λ d, Is_true (Mongo.matches ∅ d)) l = l.
Proof.
  induction l as [|d l IH]; [done|].
  rewrite filter_cons_True by (by rewrite matches_empty). by rewrite IH.
Qed.

Lemma set_get_coll c db : set_coll c (get_coll c db) db = db.
Proof. by destruct c, db. Qed.

Lemma get_set_coll c l db : get_coll c (set_coll c l db) = l.
Proof. by destruct c. Qed.

Lemma get_set_coll_ne c c' l db : c ≠ c' → get_coll c' (set_coll c l db) = get_coll c' db.
Proof. by destruct c, c'. Qed.

Lemma next_oid_set_coll c l db : next_oid (set_coll c l db) = next_oid db.
Proof. by destruct c. Qed.

Lemma split_first_with_id i l :
  Exists (has_id i) l → ∃ l1 d l2, first_with_id i l l1 d l2.
Proof.
  induction l as [|x l IH]; intros Hex; [by apply Exists_nil in Hex|].
  destruct (decide (has_id i x)) as [Hx|Hx].
  - exists [], x, l. split; [done|]. split; [constructor|done].
  - apply Exists_cons in Hex as [?|Hex]; [done|].
    destruct (IH Hex) as (l1 & d & l2 & -> & Hl1 & Hd).
    exists (x :: l1), d, l2. split; [done|]. split; [by constructor|done].
Qed.

Lemma delete_first_miss i l :
  Forall (λ x, ¬ has_id i x) l →
  Mongo.delete_first {[ "id" := VStr i ]} l = (0%nat, l).
Proof.
  induction 1 as [|x l Hx _ IH]; simpl; [done|].
  by rewrite (matches_id_false _ _ Hx), IH.
Qed.

Lemma delete_first_hit i l l1 d l2 :
  first_with_id i l l1 d l2 →
  Mongo.delete_first {[ "id" := VStr i ]} l = (1%nat, l1 ++ l2).
Proof.
  intros (-> & Hl1 & Hd).
  induction Hl1 as [|x l Hx _ IH]; simpl.
  - by rewrite (proj2 (matches_id i d) Hd).
  - by rewrite (matches_id_false _ _ Hx), IH.
Qed.

Lemma update_first_miss i fields l :
  Forall (λ x, ¬ has_id i x) l →
  Mongo.update_first {[ "id" := VStr i ]} fields l = (0%nat, l).
Proof.
  induction 1 as [|x l Hx _ IH]; simpl; [done|].
  by rewrite (matches_id_false _ _ Hx), IH.
Qed.

Lemma update_first_hit i fields l l1 d l2 :
  first_with_id i l l1 d l2 →
  Mongo.update_first {[ "id" := VStr i ]} fields l
    = (1%nat, l1 ++ Mongo.apply_set fields d :: l2).
Proof.
  intros (-> & Hl1 & Hd).
  induction Hl1 as [|x l Hx _ IH]; simpl.
  - by rewrite (proj2 (matches_id i d) Hd).
  - by rewrite (matches_id_false _ _ Hx), IH.
Qed.

Lemma find_first_miss i l :
  Forall (λ x, ¬ has_id i x) l →
  filter (λ d, Is_true (Mongo.matches {[ "id" := VStr i ]} d)) l = [].
Proof.
  induction 1 as [|x l Hx _ IH]; [done|].
  by rewrite filter_cons_False by (rewrite (matches_id_false _ _ Hx); intros []).
Qed.

Lemma find_first_hit i l l1 d l2 :
  first_with_id i l l1 d l2 →
  head (filter (λ d, Is_true (Mongo.matches {[ "id" := VStr i ]} d)) l) = Some d.
Proof.
  intros (-> & Hl1 & Hd).
  rewrite filter_app, (find_first_miss _ _ Hl1). simpl.
  by rewrite filter_cons_True by (by rewrite (proj2 (matches_id i d) Hd)).
Qed.

(** A changed document keeps its identifier as long as the change does
    not write ["id"]. *)
Lemma first_with_id_replace i l1 d d' l2 :
  first_with_id i (l1 ++ d :: l2) l1 d l2 → has_id i d' →
  first_with_id i (l1 ++ d' :: l2) l1 d' l2.
Proof. intros (_ & Hl1 & _) Hd'. split; [done|]. by split. Qed.

End store_facts.

(** ** Deleting by identifier *)

Lemma delete_one_miss c i db :
  Forall (λ d, ¬ has_id i d) (get_coll c db) →
  Mongo.delete_one c {[ "id" := VStr i ]} db = (Ok 0%nat, db).
Proof.
  intros Hmiss. unfold Mongo.delete_one.
  by rewrite (delete_first_miss _ _ Hmiss), set_get_coll.
Qed.

Lemma delete_one_hit c i db l1 d l2 :
  first_with_id i (get_coll c db) l1 d l2 →
  Mongo.delete_one c {[ "id" := VStr i ]} db = (Ok 1%nat, set_coll c (l1 ++ l2) db).
Proof.
  intros Hhit. unfold Mongo.delete_one.
  by rewrite (delete_first_hit _ _ _ _ _ Hhit).
Qed.

(** ** Partial update of a war *)


Lemma update_data_lookup u k : update_data_of u !! k = patch_field u k.
Proof.
  apply option_eq; intros v. unfold update_data_of.
  rewrite map_lookup_filter_Some. unfold WarStatisticUpdate.model_dump, patch_field.
  destruct u as [o w l r]; simpl.
  destruct (decide (k = "opponent")) as [->|?];
    [destruct o; simplify_map_eq; intuition congruence|].
  destruct (decide (k = "wins")) as [->|?];
    [destruct w; simplify_map_eq; intuition congruence|].
  destruct (decide (k = "losses")) as [->|?];
    [destruct l; simplify_map_eq; intuition congruence|].
  destruct (decide (k = "order")) as [->|?];
    [destruct r; simplify_map_eq; intuition congruence|].
  simplify_map_eq. intuition congruence.
Qed.

Lemma patch_field_id u : patch_field u "id" = None.
Proof. reflexivity. Qed.

Section update_war_facts.
Context `{Pydantic} (rnd : Entropy).

Lemma not_existing_false i d : has_id i d → not_ (Some (Mongo.project_no_id d)) = false.
Proof.
  intros Hd. simpl. apply bool_decide_eq_false. intros Hempty.
  assert (Mongo.project_no_id d !! "id" = Some (VStr i)) as Hl
    by (unfold Mongo.project_no_id; by rewrite lookup_delete_ne).
  by rewrite Hempty in Hl.
Qed.

Lemma apply_set_has_id i u d : has_id i d → has_id i (update_data_of u ∪ d).
Proof.
  intros Hd. unfold has_id.
  by rewrite lookup_union_r by (by rewrite update_data_lookup).
Qed.

Lemma update_war_hit war_id war_data token db l1 d l2 :
  first_with_id war_id (wars db) l1 d l2 →
  update_war rnd war_id war_data token db
    = (WarStatistic.validate (uuid4 rnd 0)
         (Mongo.project_no_id (update_data_of war_data ∪ d)),
       set_coll Wars (l1 ++ (update_data_of war_data ∪ d) :: l2) db).
Proof.
  intros Hhit. pose proof Hhit as (Hwars & Hl1 & Hd).
  assert (first_with_id war_id (l1 ++ (update_data_of war_data ∪ d) :: l2)
            l1 (update_data_of war_data ∪ d) l2) as Hhit'.
  { split; [done|]. split; [done|]. by apply apply_set_has_id. }
  unfold update_war, bind, Mongo.find_one at 1.
  change (get_coll Wars db) with (wars db).
  rewrite (find_first_hit _ _ _ _ _ Hhit).
  change (Mongo.project_no_id <$> Some d) with (Some (Mongo.project_no_id d)).
  rewrite (not_existing_false _ _ Hd).
  fold (update_data_of war_data).
  assert (∀ r : nat, ∃ n : nat,
    (if bool_decide (update_data_of war_data = ∅) then ret r
     else Mongo.update_one Wars {[ "id" := VStr war_id ]} (update_data_of war_data)) db
    = (Ok n, set_coll Wars (l1 ++ (update_data_of war_data ∪ d) :: l2) db)) as Hupd.
  { intros r. case_bool_decide as Hempty.
    - exists r. unfold ret. f_equal. rewrite Hempty, (left_id_L ∅ (∪)).
      rewrite <- Hwars. by destruct db.
    - exists 1%nat. unfold Mongo.update_one.
      change (get_coll Wars db) with (wars db).
      by rewrite (update_first_hit _ _ _ _ _ _ Hhit). }
  destruct (Hupd 0%nat) as [n ->].
  unfold Mongo.find_one. rewrite get_set_coll, (find_first_hit _ _ _ _ _ Hhit').
  simpl. by destruct (WarStatistic.validate _ _).
Qed.

Lemma update_war_miss war_id war_data token db :
  Forall (λ d, ¬ has_id war_id d) (wars db) →
  update_war rnd war_id war_data token db
    = (Raise (HTTPException 404 "War not found"), db).
Proof.
  intros Hmiss. unfold update_war, bind, Mongo.find_one at 1.
  change (get_coll Wars db) with (wars db).
  by rewrite (find_first_miss _ _ Hmiss).
Qed.
End update_war_facts.



Lemma delete_one_deletes_by_id c detail message :
  deletes_by_id c
    (λ i _, bind (Mongo.delete_one c {[ "id" := VStr i ]})
              (λ deleted_count,
                 if (deleted_count =? 0)%nat then raise (HTTPException 404 detail)
                 else ret message))
    detail message.
Proof.
  intros i token db. split.
  - intros Hmiss. unfold bind. by rewrite (delete_one_miss _ _ _ Hmiss).
  - intros Hex. destruct (split_first_with_id _ _ Hex) as (l1 & d & l2 & Hhit).
    exists l1, d, l2. split; [done|].
    unfold bind. by rewrite (delete_one_hit _ _ _ _ _ _ Hhit).
Qed.

(** C7. Deleting a war, a gallery image or a testimonial by an identifier
    that no document of the collection carries fails with 404 and leaves
    the store as it was; when some document carries the identifier, the
    delete succeeds and the store afterwards is the old one without exactly
    that document (the first with the identifier). *)
Theorem delete_absent_404_present_removed :
  deletes_by_id Wars delete_war "War not found" "War deleted successfully"
  ∧ deletes_by_id Gallery delete_gallery_image "Image not found" "Image deleted successfully"
  ∧ deletes_by_id Testimonials delete_testimonial "Testimonial not found"
      "Testimonial deleted successfully".
Proof.
  split; [|split].
  - exact (delete_one_deletes_by_id Wars _ _).
  - exact (delete_one_deletes_by_id Gallery _ _).
  - exact (delete_one_deletes_by_id Testimonials _ _).
Qed.

Lemma delete_absent_404_present_removed_witness :
  delete_war "w9" ∅ sample_db = (Raise (HTTPException 404 "War not found"), sample_db)
  ∧ ∃ l1 d l2, first_with_id "w2" (wars sample_db) l1 d l2
      ∧ delete_war "w2" ∅ sample_db
        = (Ok "War deleted successfully", set_coll Wars (l1 ++ l2) sample_db).
Proof.
  destruct delete_absent_404_present_removed as (Hwars & _ & _).
  destruct (Hwars "w9" ∅ sample_db) as [Habsent _].
  destruct (Hwars "w2" ∅ sample_db) as [_ Hpresent].
  split.
  - apply Habsent. repeat constructor; by vm_compute.
  - apply Hpresent. apply Exists_cons_tl, Exists_cons_hd. by vm_compute.
Defined.

(** C4. Updating a war whose identifier some record carries rewrites that
    record (the first with the identifier) so that each field the request
    provides with a non-null value takes that value and every other field,
    the identifier included, keeps its old one; all other records, the other
    collections and the rest of the store are as before, and the handler
    returns the validated updated record.  When no record carries the
    identifier the update fails with 404 and the store is unchanged. *)
Theorem update_war_applies_provided_fields `{Pydantic} (rnd : Entropy)
    (war_id : string) (war_data : WarStatisticUpdate.t) (token : claims) (db : DB) :
  (∀ l1 d l2, first_with_id war_id (wars db) l1 d l2 →
     ∃ d' : doc,
       (∀ k, d' !! k = match patch_field war_data k with
                       | Some v => Some v
                       | None => d !! k
                       end)
       ∧ d' !! "id" = d !! "id"
       ∧ update_war rnd war_id war_data token db
         = (WarStatistic.validate (uuid4 rnd 0) (Mongo.project_no_id d'),
            set_coll Wars (l1 ++ d' :: l2) db))
  ∧ (Forall (λ d, ¬ has_id war_id d) (wars db) →
     update_war rnd war_id war_data token db
       = (Raise (HTTPException 404 "War not found"), db)).
Proof.
  split; [|apply update_war_miss].
  intros l1 d l2 Hhit. exists (update_data_of war_data ∪ d).
  assert (∀ k, (update_data_of war_data ∪ d) !! k
               = match patch_field war_data k with
                 | Some v => Some v
                 | None => d !! k
                 end) as Hlookup.
  { intros k. rewrite lookup_union, update_data_lookup.
    destruct (patch_field war_data k), (d !! k); done. }
  split; [done|]. split; [by rewrite Hlookup|].
  by apply update_war_hit.
Qed.

Lemma update_war_applies_provided_fields_witness :
  (∃ d' : doc,
     (∀ k, d' !! k = match patch_field (WarStatisticUpdate.mk None (Some 4) None None) k with
                     | Some v => Some v
                     | None => sample_war "w2" 5 !! k
                     end)
     ∧ d' !! "id" = sample_war "w2" 5 !! "id"
     ∧ update_war Reference.rnd "w2" (WarStatisticUpdate.mk None (Some 4) None None) ∅ sample_db
       = (WarStatistic.validate (uuid4 Reference.rnd 0) (Mongo.project_no_id d'),
          set_coll Wars ([sample_war "w1" 3] ++ d' :: []) sample_db))
  ∧ update_war Reference.rnd "w9" (WarStatisticUpdate.mk None (Some 4) None None) ∅ sample_db
    = (Raise (HTTPException 404 "War not found"), sample_db).
Proof.
  split.
  - apply (proj1 (update_war_applies_provided_fields Reference.rnd "w2"
                    (WarStatisticUpdate.mk None (Some 4) None None) ∅ sample_db)).
    split; [reflexivity|]. split; [|by vm_compute].
    repeat constructor; by vm_compute.
  - apply (proj2 (update_war_applies_provided_fields Reference.rnd "w9"
                    (WarStatisticUpdate.mk None (Some 4) None None) ∅ sample_db)).
    repeat constructor; by vm_compute.
Defined.

Example update_war_sample :
  update_war Reference.rnd "w2" (WarStatisticUpdate.mk None (Some 4) None None) ∅ sample_db
  = (Ok (WarStatistic.mk "w2" "Spain" 4 1 7),
     mkDB [] [sample_war "w1" 3; sample_war "w2" 4] (gallery sample_db)
       (testimonials sample_db) 9).
Proof. by vm_compute. Qed.

(** ** The auth gate *)

Section auth_facts.
Context (env : Environment) `{PyJWT} `{Datetime} `{Pydantic} `{HTTPBearer}.
Context (rnd : Entropy).

Lemma Depends_verify_token_refuses authorization db :
  ¬ carries_valid_token env rnd authorization →
  ∃ e, Depends_verify_token env rnd authorization db = (Raise e, db)
       ∧ match authorization with
         | Some _ => ∃ detail, e = HTTPException HTTP_401_UNAUTHORIZED detail
         | None => e = HTTPException not_authenticated_status "Not authenticated"
         end.
Proof.
  intros Hno. unfold Depends_verify_token, security, verify_token.
  destruct authorization as [credentials|]; [|by eexists].
  destruct (jwt_decode credentials (JWT_SECRET env) (jwt_clock rnd)) as [payload| |] eqn:E.
  - destruct Hno. by exists credentials, payload.
  - eexists; split; [done|by eexists].
  - eexists; split; [done|by eexists].
Qed.

Lemma gated_refuses {A B} (f : A → B) (h : claims → Handler A) authorization db :
  ¬ carries_valid_token env rnd authorization →
  ∃ e, fmap_handler f (gated env rnd authorization h) db = (Raise e, db)
       ∧ match authorization with
         | Some _ => ∃ detail, e = HTTPException HTTP_401_UNAUTHORIZED detail
         | None => e = HTTPException not_authenticated_status "Not authenticated"
         end.
Proof.
  intros Hno. destruct (Depends_verify_token_refuses _ db Hno) as (e & He & Hstatus).
  exists e. split; [|done]. unfold fmap_handler, gated, bind. by rewrite He.
Qed.

Lemma gated_runs {A B} (f : A → B) (h : claims → Handler A) credentials payload db :
  jwt_decode credentials (JWT_SECRET env) (jwt_clock rnd) = Decoded payload →
  fmap_handler f (gated env rnd (Some credentials) h) db
    = fmap_handler f (h payload) db.
Proof.
  intros Hdec.
  unfold fmap_handler, gated, bind, Depends_verify_token, security, verify_token.
  by rewrite Hdec.
Qed.
End auth_facts.

(** C1 (as amended). Each of war create/update/delete, gallery
    create/delete and testimonial approve/delete fails without touching the
    store unless the request carries a token that decodes with a valid
    signature and unexpired expiry: with 401 Unauthorized when a token is
    presented, with the bearer scheme's rejection when none is. *)
Theorem gated_mutations_refuse_without_token (env : Environment)
    `{PyJWT} `{Datetime} `{Pydantic} `{HTTPBearer} (rnd : Entropy) (req : request) :
  gated_mutation req = true → refuses_without_token env rnd req.
Proof.
  intros Hgated authorization db Hno.
  destruct req; try discriminate Hgated; simpl; by apply gated_refuses.
Qed.

Lemma gated_mutations_refuse_without_token_witness :
  refuses_without_token Reference.env Reference.rnd (DELETE_wars "w1").
Proof.
  apply (gated_mutations_refuse_without_token Reference.env Reference.rnd (DELETE_wars "w1")).
  reflexivity.
Defined.


(** ** Login *)

(** C2. [admin_login] succeeds exactly when the username and the password
    both equal the configured admin credentials.  On success it returns a
    bearer token that PyJWT signed over the subject (the given username),
    the role ["admin"] and an expiry 24 hours (86400 s) after issuance; the
    token verifies to these claims until the expiry and is rejected as
    expired from then on.  On any mismatch it fails with 401. *)
Theorem admin_login_iff_credentials (env : Environment) `{J : PyJWT} `{!PyJWTSpec J}
    (rnd : Entropy) (login_data : AdminLogin.t) (db : DB) :
  let username := AdminLogin.username login_data in
  let password := AdminLogin.password login_data in
  let expire := utcnow rnd 0 + 86400 in
  (username = ADMIN_USERNAME env ∧ password = ADMIN_PASSWORD env →
     ∃ access_token,
       admin_login env rnd login_data db
         = (Ok (AdminToken.mk access_token "bearer"), db)
       ∧ access_token
         = jwt_encode ({[ "exp" := VDate expire; "sub" := VStr username;
                          "role" := VStr "admin" ]} : claims) (JWT_SECRET env)
       ∧ (∀ later : Entropy, jwt_clock later < expire →
            verify_token env later access_token
              = Ok ({[ "exp" := VInt expire; "sub" := VStr username;
                       "role" := VStr "admin" ]} : claims))
       ∧ (∀ later : Entropy, expire ≤ jwt_clock later →
            verify_token env later access_token
              = Raise (HTTPException 401 "Token expired")))
  ∧ (¬ (username = ADMIN_USERNAME env ∧ password = ADMIN_PASSWORD env) →
     admin_login env rnd login_data db
       = (Raise (HTTPException 401 "Invalid credentials"), db)).
Proof.
  intros username password expire. split.
  - intros [Hu Hp]. eexists. unfold admin_login.
    rewrite !bool_decide_true by done. simpl.
    split; [reflexivity|]. split; [reflexivity|].
    unfold create_access_token, verify_token, hours.
    change (utcnow rnd 0 + 24 * 3600) with expire.
    split; intros later Hclock.
    + rewrite (jwt_decode_encode_live _ _ expire) by (by rewrite ?lookup_insert_eq).
      by rewrite insert_insert_eq.
    + by rewrite (jwt_decode_encode_expired _ _ expire) by (by rewrite ?lookup_insert_eq).
  - intros Hno. unfold admin_login.
    destruct (decide (username = ADMIN_USERNAME env)) as [Hu|Hu].
    + rewrite (bool_decide_true _ Hu), bool_decide_false; [done|].
      intros Hp. by apply Hno.
    + by rewrite (bool_decide_false _ Hu).
Qed.

Lemma admin_login_iff_credentials_witness :
  (∃ access_token,
     admin_login Reference.env Reference.rnd (AdminLogin.mk "admin" "portugal") sample_db
       = (Ok (AdminToken.mk access_token "bearer"), sample_db)
     ∧ access_token
       = jwt_encode ({[ "exp" := VDate 87400; "sub" := VStr "admin";
                        "role" := VStr "admin" ]} : claims) "s3cret"
     ∧ (∀ later : Entropy, jwt_clock later < 87400 →
          verify_token Reference.env later access_token
            = Ok ({[ "exp" := VInt 87400; "sub" := VStr "admin";
                     "role" := VStr "admin" ]} : claims))
     ∧ (∀ later : Entropy, 87400 ≤ jwt_clock later →
          verify_token Reference.env later access_token
            = Raise (HTTPException 401 "Token expired")))
  ∧ admin_login Reference.env Reference.rnd (AdminLogin.mk "admin" "lisboa") sample_db
    = (Raise (HTTPException 401 "Invalid credentials"), sample_db).
Proof.
  split.
  - apply (proj1 (admin_login_iff_credentials Reference.env Reference.rnd
                    (AdminLogin.mk "admin" "portugal") sample_db)).
    split; reflexivity.
  - apply (proj2 (admin_login_iff_credentials Reference.env Reference.rnd
                    (AdminLogin.mk "admin" "lisboa") sample_db)).
    intros [_ Hp]. discriminate Hp.
Defined.

(** ** Bootstrap *)

Lemma insert_many_spec c ds db :
  Mongo.insert_many c ds db
    = (Ok tt,
       set_coll c (get_coll c db ++ with_oids (next_oid db) ds)
         (mkDB (leaders db) (wars db) (gallery db) (testimonials db)
            (next_oid db + N.of_nat (length ds))%N)).
Proof.
  revert db. induction ds as [|d ds IH]; intros db.
  - simpl. unfold ret. f_equal. rewrite app_nil_r, N.add_0_r.
    by destruct c, db.
  - cbn [Mongo.insert_many]. unfold bind, Mongo.insert_one. rewrite IH.
    f_equal. destruct c, db; cbn -[N.of_nat N.add with_oids Mongo.with_oid];
      rewrite <- ?app_assoc; cbn [app with_oids length]; f_equal; lia.
Qed.

Lemma count_all c db : Mongo.count_documents c ∅ db = (Ok (length (get_coll c db)), db).
Proof. unfold Mongo.count_documents. by rewrite filter_matches_empty. Qed.

Lemma length_with_oids n ds : length (with_oids n ds) = length ds.
Proof. revert n. induction ds as [|d ds IH]; intros n; simpl; [done|by rewrite IH]. Qed.

Lemma length_seeds `{Datetime} rnd :
  length (seed_leaders rnd) = 3%nat
  ∧ length (seed_wars rnd) = 6%nat
  ∧ length (seed_gallery rnd) = 4%nat.
Proof. by split. Qed.

Lemma initialize_data_unfold `{Datetime} rnd db :
  initialize_data rnd db
  = if (0 <? length (leaders db))%nat
    then (Ok "Database already initialized", db)
    else
      bind (Mongo.insert_many Leaders (seed_leaders rnd))
        (λ _, bind (Mongo.insert_many Wars (seed_wars rnd))
                (λ _, bind (Mongo.insert_many Gallery (seed_gallery rnd))
                        (λ _, ret "Database initialized successfully"))) db.
Proof.
  unfold initialize_data. unfold bind at 1. rewrite count_all.
  change (get_coll Leaders db) with (leaders db).
  by destruct (0 <? length (leaders db))%nat.
Qed.

Lemma initialize_data_done `{Datetime} rnd db :
  leaders db ≠ [] →
  initialize_data rnd db = (Ok "Database already initialized", db).
Proof.
  intros Hne. rewrite initialize_data_unfold.
  destruct (leaders db); [done|reflexivity].
Qed.

Lemma initialize_data_seeds `{Datetime} rnd db :
  leaders db = [] →
  initialize_data rnd db
    = (Ok "Database initialized successfully",
       mkDB (with_oids (next_oid db) (seed_leaders rnd))
            (wars db ++ with_oids (next_oid db + 3) (seed_wars rnd))
            (gallery db ++ with_oids (next_oid db + 9) (seed_gallery rnd))
            (testimonials db)
            (next_oid db + 13)%N).
Proof.
  intros Hempty. rewrite initialize_data_unfold, Hempty.
  change (0 <? length (@nil doc))%nat with false. cbv beta iota.
  destruct (length_seeds rnd) as (Hl & Hw & Hg).
  unfold bind. rewrite (insert_many_spec Leaders), Hl. cbv beta iota.
  rewrite (insert_many_spec Wars), Hw. cbv beta iota.
  rewrite (insert_many_spec Gallery), Hg.
  unfold ret. destruct db as [ls ws gs ts n].
  cbn [leaders wars gallery testimonials next_oid get_coll set_coll] in *.
  subst ls. cbn [app]. change (N.of_nat 3) with 3%N.
  replace (n + 3 + N.of_nat 6 + N.of_nat 4)%N with (n + 13)%N by lia.
  by replace (n + 3 + N.of_nat 6)%N with (n + 9)%N by lia.
Qed.

(** C5. [initialize_data] does nothing and reports that the database is
    already initialized whenever the leaders collection is non-empty;
    otherwise it appends the fixed seed sets to leaders, wars and gallery.
    Hence a second call after a call on the empty store changes nothing:
    the store still holds the 3 + 6 + 4 seed records once. *)
Theorem initialize_data_seeds_once `{Datetime} (rnd : Entropy) (db : DB) :
  (leaders db ≠ [] →
     initialize_data rnd db = (Ok "Database already initialized", db))
  ∧ (leaders db = [] →
     initialize_data rnd db
       = (Ok "Database initialized successfully",
          mkDB (with_oids (next_oid db) (seed_leaders rnd))
               (wars db ++ with_oids (next_oid db + 3) (seed_wars rnd))
               (gallery db ++ with_oids (next_oid db + 9) (seed_gallery rnd))
               (testimonials db)
               (next_oid db + 13)%N))
  ∧ (∀ again : Entropy,
       let once := (initialize_data rnd empty_db).2 in
       initialize_data again once = (Ok "Database already initialized", once)
       ∧ length (leaders once) = 3%nat
       ∧ length (wars once) = 6%nat
       ∧ length (gallery once) = 4%nat).
Proof.
  split; [apply initialize_data_done|]. split; [apply initialize_data_seeds|].
  intros again. cbv zeta.
  generalize (initialize_data_seeds rnd empty_db eq_refl).
  generalize (initialize_data rnd empty_db). intros once ->.
  cbn [snd leaders wars gallery empty_db app].
  destruct (length_seeds rnd) as (Hl & Hw & Hg).
  rewrite !length_with_oids. split; [|done].
  apply initialize_data_done. cbn [leaders].
  intros Hnil. apply (f_equal length) in Hnil.
  by rewrite length_with_oids, Hl in Hnil.
Qed.

Lemma initialize_data_seeds_once_witness :
  initialize_data Reference.rnd sample_db
    = (Ok "Database initialized successfully",
       mkDB (with_oids 9 (seed_leaders Reference.rnd))
            (wars sample_db ++ with_oids 12 (seed_wars Reference.rnd))
            (gallery sample_db ++ with_oids 18 (seed_gallery Reference.rnd))
            (testimonials sample_db) 22)
  ∧ initialize_data Reference.rnd led_db = (Ok "Database already initialized", led_db).
Proof.
  split.
  - apply (proj1 (proj2 (initialize_data_seeds_once Reference.rnd sample_db))).
    reflexivity.
  - apply (proj1 (initialize_data_seeds_once Reference.rnd led_db)).
    discriminate.
Defined.

(** C1, the claim as stated fails: the bootstrap route is among the
    mutating operations the claim lists, yet it takes no token.  A request
    without credentials seeds the empty store. *)
Lemma initialize_is_not_gated :
  mutation_other_than_testimonial_creation POST_initialize = true
  ∧ ¬ refuses_without_token Reference.env Reference.rnd POST_initialize.
Proof.
  split; [done|]. intros Hclaim.
  destruct (Hclaim None empty_db) as (e & He & _).
  - by intros (credentials & payload & ? & _).
  - by vm_compute in He.
Qed.

(** ** Sorted listings *)

Lemma bson_le_total a b : Mongo.bson_le a b = true ∨ Mongo.bson_le b a = true.
Proof.
  destruct a as [|x|x|x|x|x], b as [|y|y|y|y|y]; simpl; auto.
  - destruct x, y; auto.
  - destruct (Z.leb_spec x y), (Z.leb_spec y x); auto; lia.
  - apply String.leb_total.
  - destruct (Z.leb_spec x y), (Z.leb_spec y x); auto; lia.
  - destruct (N.leb_spec x y), (N.leb_spec y x); auto; lia.
Qed.

#[global] Instance before_total key dir : Total (Mongo.before key dir).
Proof.
  intros d1 d2. unfold Mongo.before.
  destruct dir, (bson_le_total (Mongo.sort_key key d1) (Mongo.sort_key key d2)) as [E|E];
    rewrite E; simpl; auto.
Qed.

Lemma string_compare_refl s : (s ?= s)%string = Eq.
Proof.
  induction s as [|a s IH]; simpl; [done|].
  unfold Ascii.compare. by rewrite N.compare_refl.
Qed.

Lemma string_compare_lt_trans s t u :
  (s ?= t)%string = Lt → (t ?= u)%string = Lt → (s ?= u)%string = Lt.
Proof.
  revert t u. induction s as [|a s IH]; intros [|b t] [|c u]; simpl; try done.
  destruct (Ascii.compare a b) eqn:Eab; try done;
    destruct (Ascii.compare b c) eqn:Ebc; try done.
  - apply Ascii.compare_eq_iff in Eab as ->. rewrite Ebc. apply IH.
  - apply Ascii.compare_eq_iff in Eab as ->. by rewrite Ebc.
  - apply Ascii.compare_eq_iff in Ebc as <-. by rewrite Eab.
  - intros _ _. unfold Ascii.compare in *.
    rewrite N.compare_lt_iff in Eab, Ebc.
    by rewrite (proj2 (N.compare_lt_iff _ _)) by lia.
Qed.

Lemma string_leb_trans s t u :
  String.leb s t = true → String.leb t u = true → String.leb s u = true.
Proof.
  unfold String.leb.
  destruct (s ?= t)%string eqn:Est; [|intros _|done].
  - apply String.compare_eq_iff in Est as ->. done.
  - destruct (t ?= u)%string eqn:Etu; [|intros _|done].
    + apply String.compare_eq_iff in Etu as <-. by rewrite Est.
    + by rewrite (string_compare_lt_trans _ _ _ Est Etu).
Qed.

Lemma bson_le_trans a b c :
  Mongo.bson_le a b = true → Mongo.bson_le b c = true → Mongo.bson_le a c = true.
Proof.
  destruct a as [|x|x|x|x|x], b as [|y|y|y|y|y], c as [|z|z|z|z|z];
    simpl; try done.
  - by destruct x, y, z.
  - rewrite !Z.leb_le. lia.
  - apply string_leb_trans.
  - rewrite !Z.leb_le. lia.
  - rewrite !N.leb_le. lia.
Qed.

#[global] Instance before_trans key dir : Transitive (Mongo.before key dir).
Proof.
  intros d1 d2 d3. unfold Mongo.before. destruct dir; rewrite !Is_true_true.
  - apply bson_le_trans.
  - intros H12 H23. by apply (bson_le_trans _ _ _ H23 H12).
Qed.

Lemma sort_key_project key d :
  key ≠ "_id" → Mongo.sort_key key (Mongo.project_no_id d) = Mongo.sort_key key d.
Proof.
  intros Hne. unfold Mongo.sort_key, Mongo.project_no_id.
  by rewrite lookup_delete_ne.
Qed.

Lemma before_project key dir d1 d2 :
  key ≠ "_id" → Mongo.before key dir d1 d2 →
  Mongo.before key dir (Mongo.project_no_id d1) (Mongo.project_no_id d2).
Proof. intros Hne. unfold Mongo.before. by rewrite !sort_key_project. Qed.

Lemma project_no_internal_id d : no_internal_id (Mongo.project_no_id d).
Proof. apply lookup_delete_eq. Qed.

Lemma find_sort_to_list_spec c query key dir n db :
  key ≠ "_id" →
  ∃ res,
    Mongo.find_sort_to_list c query key dir n db = (Ok res, db)
    ∧ first_sorted key dir n
        (Mongo.project_no_id <$>
           filter (λ d, Is_true (Mongo.matches query d)) (get_coll c db)) res
    ∧ Forall no_internal_id res.
Proof.
  intros Hne. eexists. split; [reflexivity|].
  set (hits := filter _ (get_coll c db)).
  set (sorted := Mongo.project_no_id <$> merge_sort (Mongo.before key dir) hits).
  assert (sorted ≡ₚ Mongo.project_no_id <$> hits) as Hperm.
  { unfold sorted. by rewrite merge_sort_Permutation. }
  split.
  - exists (drop n sorted). rewrite take_drop. split; [|split].
    + apply (StronglySorted_fmap _ (Mongo.before key dir) (Mongo.before key dir)).
      * intros x y. by apply before_project.
      * apply (StronglySorted_merge_sort _).
    + done.
    + by rewrite length_take, Hperm.
  - apply Forall_take, Forall_fmap, Forall_forall. intros d _.
    apply project_no_internal_id.
Qed.

Section revive_facts.
Context `{Datetime}.

Lemma revive_created_at_ok d :
  created_at_readable d → ∃ d', revive_created_at d = Ok d'.
Proof.
  intros Hread. unfold revive_created_at.
  destruct (d !! "created_at") as [[| | |s| |]|] eqn:E; try by eexists.
  destruct (Hread s E) as [t ->]. by eexists.
Qed.

Lemma revived_lookup_ne d d' k :
  revived d d' → k ≠ "created_at" → d' !! k = d !! k.
Proof.
  unfold revived, revive_created_at. intros Hrev Hne.
  destruct (d !! "created_at") as [[| | |s| |]|]; try by simplify_eq.
  destruct (fromisoformat s); simplify_eq. by rewrite lookup_insert_ne.
Qed.

Lemma revive_all_Forall2 l out : revive_all l = Ok out → Forall2 revived l out.
Proof.
  revert out. induction l as [|d l IH]; intros out; simpl.
  - intros [= <-]. constructor.
  - destruct (revive_created_at d) as [d'|] eqn:Ed; [|done].
    destruct (revive_all l) as [r|]; [|done].
    intros [= <-]. constructor; [done|by apply IH].
Qed.

Lemma revive_all_ok l :
  Forall created_at_readable l → ∃ out, revive_all l = Ok out.
Proof.
  induction 1 as [|d l Hd _ [r IH]]; simpl; [by eexists|].
  destruct (revive_created_at_ok d Hd) as [d' ->]. rewrite IH. by eexists.
Qed.

Lemma revive_all_raises l e : revive_all l = Raise e → e = ValueError.
Proof.
  induction l as [|d l IH]; simpl; [done|].
  unfold revive_created_at at 1.
  destruct (d !! "created_at") as [[| | |s| |]|];
    try (destruct (revive_all l); [done|intros [= <-]; by apply IH]).
  destruct (fromisoformat s); [|by intros [= <-]].
  destruct (revive_all l); [done|intros [= <-]; by apply IH].
Qed.

Lemma created_at_readable_project d :
  created_at_readable d → created_at_readable (Mongo.project_no_id d).
Proof.
  intros Hread s. unfold Mongo.project_no_id.
  rewrite lookup_delete_ne by done. apply Hread.
Qed.

Lemma listing_spec (P : doc → Prop) `{∀ d, Decision (P d)} query key dir c db :
  key ≠ "_id" →
  (∀ d, Is_true (Mongo.matches query d) ↔ P d) →
  lists_first_100 P key dir c
    (bind (Mongo.find_sort_to_list c query key dir 100) (λ l, lift (revive_all l))) db.
Proof.
  intros Hne HP.
  destruct (find_sort_to_list_spec c query key dir 100 db Hne) as (res & Hres & Hfirst & Hid).
  rewrite (list_filter_iff _ P) in Hfirst by done.
  exists res. split; [unfold bind; by rewrite Hres|]. split; [done|].
  split; [destruct Hfirst as (_ & _ & _ & ->); lia|]. split; [done|].
  intros Hread.
  assert (Forall created_at_readable res) as Hres_read.
  { destruct Hfirst as (rest & _ & Hperm & _).
    assert (Forall created_at_readable (res ++ rest)) as Hall.
    { rewrite Hperm. apply Forall_fmap, Forall_forall. intros d Hd. simpl.
      apply created_at_readable_project.
      apply list_elem_of_filter in Hd as [_ Hd].
      by apply (proj1 (Forall_forall _ _) Hread). }
    by apply Forall_app in Hall as [? _]. }
  destruct (revive_all_ok res Hres_read) as [out Hout].
  exists out. split; [done|].
  pose proof (revive_all_Forall2 _ _ Hout) as Hrev. split; [done|].
  clear Hout Hres Hfirst Hres_read. induction Hrev as [|d d' l k Hd _ IH]; [constructor|].
  apply Forall_cons in Hid as [Hd_id Hl_id].
  constructor; [|by apply IH].
  unfold no_internal_id. by rewrite (revived_lookup_ne _ _ _ Hd).
Qed.
End revive_facts.

Lemma first_sorted_Forall (Q : doc → Prop) key dir n all res :
  first_sorted key dir n all res → Forall Q all → Forall Q res.
Proof.
  intros (rest & _ & Hperm & _) Hall. rewrite <- Hperm in Hall.
  by apply Forall_app in Hall as [? _].
Qed.

Lemma listing_as_stored_spec key c db :
  key ≠ "_id" →
  lists_first_100_as_stored key Mongo.Ascending c
    (Mongo.find_sort_to_list c ∅ key Mongo.Ascending 100) db.
Proof.
  intros Hne.
  destruct (find_sort_to_list_spec c ∅ key Mongo.Ascending 100 db Hne)
    as (res & Hres & Hfirst & Hid).
  rewrite filter_matches_empty in Hfirst.
  exists res. split; [done|]. split; [done|]. split; [|done].
  destruct Hfirst as (_ & _ & _ & ->). lia.
Qed.

Lemma matches_visible (approved_only : bool) (d : doc) :
  Is_true (Mongo.matches (if approved_only then ({[ "approved" := VBool true ]} : doc) else ∅) d)
  ↔ visible approved_only d.
Proof.
  destruct approved_only; simpl.
  - rewrite Is_true_true. apply matches_singleton.
  - by rewrite matches_empty.
Qed.

Lemma filter_everything (l : list doc) : filter (λ _ : doc, True) l = l.
Proof.
  induction l as [|d l IH]; [done|].
  rewrite filter_cons_True by done. by rewrite IH.
Qed.

Section parsed_facts.
Context `{Datetime}.

Lemma revived_parsed_date d d' : revived d d' → parsed_date d d'.
Proof.
  unfold revived, revive_created_at, parsed_date.
  destruct (d !! "created_at") as [[| | |s| |]|] eqn:E;
    try (intros [= <-]; by rewrite E).
  destruct (fromisoformat s) as [t|] eqn:Et; [|done].
  intros [= <-]. split.
  - intros k Hk. by rewrite lookup_insert_ne.
  - exists t. by rewrite lookup_insert_eq.
Qed.

Lemma revived_no_internal_id res out :
  Forall no_internal_id res → Forall2 revived res out → Forall no_internal_id out.
Proof.
  intros Hid Hrev. induction Hrev as [|d d' l k Hd _ IH]; [constructor|].
  apply Forall_cons in Hid as [Hd_id Hl_id]. constructor; [|by apply IH].
  unfold no_internal_id. by rewrite (revived_lookup_ne _ _ _ Hd).
Qed.

Lemma listing_parsed_spec (P : doc → Prop) `{∀ d, Decision (P d)} query key dir c db :
  key ≠ "_id" →
  (∀ d, Is_true (Mongo.matches query d) ↔ P d) →
  lists_first_100_parsed P key dir c
    (bind (Mongo.find_sort_to_list c query key dir 100) (λ l, lift (revive_all l))) db.
Proof.
  intros Hkey HP.
  destruct (listing_spec P query key dir c db Hkey HP)
    as (res & Hres & Hfirst & Hcap & Hid & Hok).
  exists res. split; [done|]. split; [done|]. split; [done|]. split.
  - intros Hread. destruct (Hok Hread) as (out & Hout & Hrev & Hid').
    exists out. split; [by rewrite Hres, Hout|]. split; [|done].
    apply (Forall2_impl _ _ _ _ Hrev). apply revived_parsed_date.
  - intros r db'. rewrite Hres. intros [= <- <-]. split; [done|].
    destruct (revive_all res) as [out|e] eqn:Hout.
    + apply revive_all_Forall2 in Hout. split.
      * apply (Forall2_impl _ _ _ _ Hout). apply revived_parsed_date.
      * by apply (revived_no_internal_id res).
    + split; [by apply (revive_all_raises res)|].
      intros Hread. destruct (revive_all_ok res Hread) as [out Hok'].
      by rewrite Hok' in Hout.
Qed.
End parsed_facts.

(** C6 (as amended). Each list operation returns the first 100, in the
    order of its designated field (ascending [order] for leaders and wars,
    descending [created_at] for gallery and testimonials), of the documents
    of its collection that pass its filter: every document for leaders,
    wars and gallery, and for testimonials those with [approved = true]
    unless [approved_only] is false.  It never returns more than 100
    results, and no returned document carries the storage-internal [_id].
    The gallery and testimonial listings return each of these documents
    with its date read: a string stored under [created_at] is replaced by
    the datetime that [fromisoformat] gives for it, and every other field is
    as stored.  They succeed whenever the stored strings are readable, fail
    only with [ValueError] for an unreadable one, and never change the
    store. *)
Theorem listings_sorted_capped_stripped `{Datetime} (db : DB) :
  lists_first_100_as_stored "order" Mongo.Ascending Leaders get_leaders db
  ∧ lists_first_100_as_stored "order" Mongo.Ascending Wars get_wars db
  ∧ lists_first_100_parsed (λ _, True) "created_at" Mongo.Descending Gallery
      get_gallery db
  ∧ ∀ approved_only : bool,
      lists_first_100_parsed (visible approved_only) "created_at" Mongo.Descending
        Testimonials (get_testimonials approved_only) db.
Proof.
  split; [by apply listing_as_stored_spec|].
  split; [by apply listing_as_stored_spec|].
  split.
  - apply listing_parsed_spec; [done|]. intros d. by rewrite matches_empty.
  - intros approved_only. apply listing_parsed_spec; [done|].
    intros d. apply matches_visible.
Qed.

Lemma listings_sorted_capped_stripped_witness :
  (∃ res out,
     first_sorted "created_at" Mongo.Descending 100
       (Mongo.project_no_id <$> gallery dated_db) res
     ∧ @get_gallery Calendar.datetime dated_db = (Ok out, dated_db)
     ∧ Forall2 (@parsed_date Calendar.datetime) res out
     ∧ Forall no_internal_id out)
  ∧ (∃ res out,
       first_sorted "created_at" Mongo.Descending 100
         (Mongo.project_no_id <$> gallery crowded_gallery_db) res
       ∧ get_gallery crowded_gallery_db = (Ok out, crowded_gallery_db)
       ∧ Forall2 parsed_date res out
       ∧ Forall no_internal_id out
       ∧ length out = 100%nat).
Proof.
  split.
  - destruct (proj1 (proj2 (proj2
                (@listings_sorted_capped_stripped Calendar.datetime dated_db))))
      as (res & Hfirst & _ & _ & Hok & _).
    destruct Hok as (out & Hout & Hparsed & Hid).
    { repeat constructor; intros s [= <-]; vm_compute; by eexists. }
    exists res, out. rewrite filter_everything in Hfirst. by repeat split.
  - destruct (proj1 (proj2 (proj2 (listings_sorted_capped_stripped crowded_gallery_db))))
      as (res & Hfirst & _ & _ & Hok & _).
    destruct Hok as (out & Hout & Hparsed & Hid).
    { apply Forall_fmap, Forall_forall. intros k _ s.
      rewrite lookup_insert_ne, lookup_insert_ne, lookup_insert_ne by done.
      rewrite lookup_singleton_eq. intros Heq.
      assert (s = isoformat (Z.of_nat k)) as -> by congruence.
      rewrite reference_fromisoformat. by eexists. }
    exists res, out. rewrite filter_everything in Hfirst.
    split; [done|]. split; [done|]. split; [done|]. split; [done|].
    rewrite <- (Forall2_length _ _ _ Hparsed).
    destruct Hfirst as (_ & _ & _ & ->).
    unfold crowded_gallery_db, get_coll, gallery, many_images.
    by rewrite !length_fmap, length_seq.
Defined.

(** The gallery of three images, listed: newest first, dates read, [_id]
    gone. *)
Example get_gallery_dated :
  @get_gallery Calendar.datetime dated_db
  = (Ok [ {[ "id" := VStr "g3"; "image_url" := VStr "g3.png";
             "created_at" := VDate 1704240000 ]};
          {[ "id" := VStr "g2"; "image_url" := VStr "g2.png";
             "created_at" := VDate 1704153600 ]};
          {[ "id" := VStr "g1"; "image_url" := VStr "g1.png";
             "created_at" := VDate 1704067200 ]} ],
     dated_db).
Proof. vm_compute. reflexivity. Qed.

(** C6, the claim as stated fails: with the default query the testimonial
    listing does not return all documents of its collection.  The sample
    store holds one testimonial, not yet approved, and the listing is
    empty. *)
Lemma default_testimonial_listing_is_filtered :
  ¬ ∃ res,
      api_router Reference.env Reference.rnd None (GET_testimonials None) sample_db
        = (Ok (RDocs res), sample_db)
      ∧ res ≡ₚ Mongo.project_no_id <$> testimonials sample_db.
Proof.
  intros (res & Hres & Hperm).
  vm_compute in Hres. injection Hres as <-.
  by apply Permutation_length in Hperm.
Qed.

(** ** Testimonials *)

Section testimonial_facts.
Context `{Datetime}.

Lemma isoformat_created_at_lookup_ne d k :
  k ≠ "created_at" → isoformat_created_at d !! k = d !! k.
Proof.
  intros Hne. unfold isoformat_created_at.
  destruct (d !! "created_at") as [[| | | |t|]|]; try done.
  by rewrite lookup_insert_ne.
Qed.

Lemma with_oid_lookup_ne n d k : k ≠ "_id" → Mongo.with_oid n d !! k = d !! k.
Proof.
  intros Hne. unfold Mongo.with_oid. destruct (d !! "_id"); [done|].
  by rewrite lookup_insert_ne.
Qed.

Lemma create_testimonial_spec rnd testimonial_data db :
  ∃ d,
    create_testimonial rnd testimonial_data db
      = (Ok (Testimonial.mk (uuid4 rnd 0)
               (TestimonialCreate.author_name testimonial_data)
               (TestimonialCreate.content testimonial_data) false (utcnow rnd 0)),
         with_testimonial d db)
    ∧ d !! "approved" = Some (VBool false)
    ∧ d !! "author_name"
      = Some (default VNull (VStr <$> TestimonialCreate.author_name testimonial_data)).
Proof.
  eexists. split; [reflexivity|].
  rewrite !with_oid_lookup_ne, !isoformat_created_at_lookup_ne by done.
  by split.
Qed.

Lemma listed_testimonials_visible approved_only db out db' :
  get_testimonials approved_only db = (Ok out, db') →
  Forall (visible approved_only) out.
Proof.
  intros Hout.
  destruct (listing_spec (visible approved_only)
              (if approved_only then ({[ "approved" := VBool true ]} : doc) else ∅)
              "created_at" Mongo.Descending Testimonials db)
    as (res & Hres & Hfirst & _); [done|apply matches_visible|].
  change (get_testimonials approved_only db = (revive_all res, db)) in Hres.
  rewrite Hres in Hout. injection Hout as Hout _.
  apply revive_all_Forall2 in Hout.
  assert (Forall (visible approved_only) res) as Hvis.
  { apply (first_sorted_Forall _ _ _ _ _ _ Hfirst).
    apply Forall_fmap, Forall_forall. intros d Hd.
    apply list_elem_of_filter in Hd as [Hd _]. simpl.
    destruct approved_only; [|done]. simpl in *.
    unfold Mongo.project_no_id. by rewrite lookup_delete_ne. }
  clear Hres Hfirst. induction Hout as [|d d' l k Hd _ IH]; [constructor|].
  apply Forall_cons in Hvis as [Hd_vis Hl_vis].
  constructor; [|by apply IH].
  destruct approved_only; [|done]. simpl in *.
  by rewrite (revived_lookup_ne _ _ _ Hd).
Qed.

Lemma filter_visible_false (l : list doc) : filter (visible false) l = l.
Proof.
  induction l as [|d l IH]; [done|].
  rewrite filter_cons_True by done. by rewrite IH.
Qed.

Lemma listed_all_when_few db :
  (length (testimonials db) ≤ 100)%nat →
  Forall created_at_readable (testimonials db) →
  ∃ res out,
    get_testimonials false db = (Ok out, db)
    ∧ Forall2 revived res out
    ∧ res ≡ₚ Mongo.project_no_id <$> testimonials db.
Proof.
  intros Hfew Hread.
  destruct (listing_spec (visible false) ∅ "created_at" Mongo.Descending Testimonials db)
    as (res & Hres & Hfirst & _ & _ & Hok);
    [done|apply (matches_visible false)|].
  change (get_testimonials false db = (revive_all res, db)) in Hres.
  destruct (Hok Hread) as (out & Hout & Hrev & _).
  exists res, out. rewrite Hres, Hout. split; [done|]. split; [done|].
  destruct Hfirst as (rest & _ & Hperm & Hlen).
  rewrite filter_visible_false in Hperm, Hlen.
  change (get_coll Testimonials db) with (testimonials db) in *.
  rewrite length_fmap in Hlen.
  assert (rest = []) as ->.
  { apply Permutation_length in Hperm.
    rewrite length_app, length_fmap in Hperm. apply nil_length_inv. lia. }
  by rewrite app_nil_r in Hperm.
Qed.

Lemma approve_testimonial_hit i token db l1 d l2 :
  first_with_id i (testimonials db) l1 d l2 →
  approve_testimonial i token db
    = (Ok "Testimonial approved",
       set_coll Testimonials (l1 ++ <["approved" := VBool true]> d :: l2) db).
Proof.
  intros Hhit. unfold approve_testimonial, bind, Mongo.update_one.
  change (get_coll Testimonials db) with (testimonials db).
  rewrite (update_first_hit _ _ _ _ _ _ Hhit). simpl.
  unfold Mongo.apply_set. by rewrite <- insert_union_singleton_l.
Qed.

Lemma approve_testimonial_miss i token db :
  Forall (λ d, ¬ has_id i d) (testimonials db) →
  approve_testimonial i token db
    = (Raise (HTTPException 404 "Testimonial not found"), db).
Proof.
  intros Hmiss. unfold approve_testimonial, bind, Mongo.update_one.
  change (get_coll Testimonials db) with (testimonials db).
  rewrite (update_first_miss _ _ _ Hmiss). simpl. by destruct db.
Qed.
End testimonial_facts.

Lemma listed_at_most_100 (env : Environment)
    `{PyJWT} `{Datetime} `{Pydantic} `{HTTPBearer} (rnd : Entropy)
    authorization approved_only db res db' :
  api_router env rnd authorization (GET_testimonials approved_only) db
    = (Ok (RDocs res), db') →
  (length res ≤ 100)%nat.
Proof.
  unfold api_router, fmap_handler, bind.
  destruct (listing_spec (visible (default true approved_only))
              (if default true approved_only
               then ({[ "approved" := VBool true ]} : doc) else ∅)
              "created_at" Mongo.Descending Testimonials db)
    as (res' & Hres' & _ & Hcap & _); [done|apply matches_visible|].
  change (get_testimonials (default true approved_only) db = (revive_all res', db))
    in Hres'.
  rewrite Hres'. destruct (revive_all res') as [out|] eqn:Hout; [|done].
  intros [= <- _]. apply revive_all_Forall2, Forall2_length in Hout. lia.
Qed.

(** C3 (as amended). A testimonial created through the public endpoint is
    returned and persisted with [approved = false].  Listing with the
    default query ([approved_only] omitted or true) returns only entries
    with [approved = true].  Listing with [approved_only = false] applies no
    filter and returns all testimonials when there are at most 100 of them;
    beyond that it returns the first 100 in descending [created_at] order.
    Approving sets [approved] to true on the matched testimonial and
    changes nothing else. *)
Theorem testimonials_moderated `{Datetime} (rnd : Entropy) (db : DB) :
  (∀ testimonial_data,
     ∃ x d,
       create_testimonial rnd testimonial_data db = (Ok x, with_testimonial d db)
       ∧ Testimonial.approved x = false
       ∧ d !! "approved" = Some (VBool false))
  ∧ (∀ (approved_only : option bool) out db',
       approved_only ≠ Some false →
       get_testimonials (default true approved_only) db = (Ok out, db') →
       Forall (λ d, d !! "approved" = Some (VBool true)) out)
  ∧ (∀ approved_only : bool,
       lists_first_100 (visible approved_only) "created_at" Mongo.Descending
         Testimonials (get_testimonials approved_only) db)
  ∧ ((length (testimonials db) ≤ 100)%nat →
     Forall created_at_readable (testimonials db) →
     ∃ res out,
       get_testimonials false db = (Ok out, db)
       ∧ Forall2 revived res out
       ∧ res ≡ₚ Mongo.project_no_id <$> testimonials db)
  ∧ (∀ i token l1 d l2,
       first_with_id i (testimonials db) l1 d l2 →
       approve_testimonial i token db
         = (Ok "Testimonial approved",
            set_coll Testimonials (l1 ++ <["approved" := VBool true]> d :: l2) db)).
Proof.
  split.
  { intros testimonial_data.
    destruct (create_testimonial_spec rnd testimonial_data db) as (d & Hc & Happroved & _).
    by eexists _, d. }
  split.
  { intros approved_only out db' Hdefault Hout.
    assert (default true approved_only = true) as Htrue
      by (by destruct approved_only as [[]|]).
    rewrite Htrue in Hout. apply (listed_testimonials_visible true _ _ _ Hout). }
  split.
  { intros approved_only. apply listing_spec; [done|].
    intros d. apply matches_visible. }
  split; [apply listed_all_when_few|].
  intros i token l1 d l2. apply approve_testimonial_hit.
Qed.

Lemma testimonials_moderated_witness :
  (∃ res out,
     get_testimonials false sample_db = (Ok out, sample_db)
     ∧ Forall2 revived res out
     ∧ res ≡ₚ Mongo.project_no_id <$> testimonials sample_db)
  ∧ (∀ out db',
       get_testimonials (default true None) sample_db = (Ok out, db') →
       Forall (λ d, d !! "approved" = Some (VBool true)) out)
  ∧ ∃ d, approve_testimonial "t1" ∅ sample_db
         = (Ok "Testimonial approved",
            set_coll Testimonials ([] ++ <["approved" := VBool true]> d :: []) sample_db).
Proof.
  destruct (testimonials_moderated Reference.rnd sample_db)
    as (_ & Hdefault & _ & Hall & Happrove).
  split; [|split].
  - apply Hall; [simpl; lia|].
    repeat constructor. intros s [= <-]. vm_compute. by eexists.
  - intros out db'. by apply Hdefault.
  - eexists. apply Happrove.
    split; [reflexivity|]. split; [constructor|by vm_compute].
Defined.

(** C3, the claim as stated fails: listing with [approved_only = false]
    does not return all testimonials once there are more than 100.  Of the
    101 testimonials of the crowded store the listing returns fewer. *)
Lemma listing_everything_is_capped :
  ¬ ∃ res,
      api_router Reference.env Reference.rnd None (GET_testimonials (Some false)) crowded_db
        = (Ok (RDocs res), crowded_db)
      ∧ length res = length (testimonials crowded_db).
Proof.
  intros (res & Hres & Hlen).
  apply listed_at_most_100 in Hres.
  unfold crowded_db, testimonials, crowd in Hlen.
  rewrite length_fmap, length_seq in Hlen. lia.
Qed.

(** The listing of the crowded store does return: 100 testimonials. *)
Example listing_crowded_returns_100 :
  ∃ out, get_testimonials false crowded_db = (Ok out, crowded_db)
         ∧ length out = 100%nat.
Proof.
  destruct (listing_spec (visible false) ∅ "created_at" Mongo.Descending
              Testimonials crowded_db)
    as (res & Hres & (_ & _ & _ & Hlen) & _ & _ & Hok);
    [done|apply (matches_visible false)|].
  change (get_testimonials false crowded_db = (revive_all res, crowded_db)) in Hres.
  destruct Hok as (out & Hout & Hrev & _).
  { apply Forall_fmap, Forall_forall. intros k _ s.
    rewrite lookup_insert_ne, lookup_insert_ne, lookup_insert_ne by done.
    rewrite lookup_singleton_eq. intros Heq.
    assert (s = isoformat (Z.of_nat k)) as -> by congruence.
    rewrite reference_fromisoformat. by eexists. }
  exists out. split; [by rewrite Hres, Hout|].
  rewrite <- (Forall2_length _ _ _ Hrev), Hlen, filter_visible_false.
  unfold crowded_db, get_coll, testimonials, crowd.
  by rewrite !length_fmap, length_seq.
Qed.

(** ** The default author name *)

(** C9 (as amended). A testimonial created without an [author_name] is
    returned and persisted with the model's default author name, the
    string ["Анонимный воин"]. *)
Theorem omitted_author_name_defaults `{Datetime} (rnd : Entropy)
    (content : string) (db : DB) :
  ∃ x d,
    create_testimonial rnd (TestimonialCreate.parse TestimonialCreate.Omitted content) db
      = (Ok x, with_testimonial d db)
    ∧ Testimonial.author_name x = Some "Анонимный воин"
    ∧ d !! "author_name" = Some (VStr "Анонимный воин").
Proof.
  destruct (create_testimonial_spec rnd
              (TestimonialCreate.parse TestimonialCreate.Omitted content) db)
    as (d & Hc & _ & Hauthor).
  by eexists _, d.
Qed.

(** C9, the claim as stated fails: the default author name is not the
    string ["anonymous"]. *)
Lemma default_author_name_is_not_anonymous :
  ¬ ∃ x d,
      create_testimonial Reference.rnd
          (TestimonialCreate.parse TestimonialCreate.Omitted "Boa!") empty_db
        = (Ok x, with_testimonial d empty_db)
      ∧ Testimonial.author_name x = Some "anonymous"
      ∧ d !! "author_name" = Some (VStr "anonymous").
Proof.
  intros (x & d & Hc & Hx & _).
  injection Hc as <- _. discriminate Hx.
Qed.

(** ** War counts *)

Section war_count_facts.
Context `{Pydantic} (rnd : Entropy).





End war_count_facts.




(** ** Admin stats *)

Lemma count_singleton c k v db :
  Mongo.count_documents c {[ k := v ]} db
    = (Ok (length (filter (λ d, d !! k = Some v) (get_coll c db))), db).
Proof.
  unfold Mongo.count_documents. do 3 f_equal.
  apply list_filter_iff. intros d. rewrite Is_true_true. apply matches_singleton.
Qed.

Lemma approved_partition l :
  Forall approved_is_bool l →
  length l
  = (length (filter (λ d, d !! "approved" = Some (VBool false)) l)
     + length (filter (λ d, d !! "approved" = Some (VBool true)) l))%nat.
Proof.
  induction 1 as [|d l [b Hb] _ IH]; [done|].
  destruct b.
  - rewrite filter_cons_False by (by rewrite Hb).
    rewrite filter_cons_True by done. simpl. lia.
  - rewrite filter_cons_True by done.
    rewrite filter_cons_False by (by rewrite Hb). simpl. lia.
Qed.

(** C10. When every testimonial document carries a boolean [approved]
    field, the admin stats report the exact sizes of the testimonial, war
    and gallery collections and the exact numbers of pending and of
    approved testimonials, the total of testimonials is the sum of the
    pending and the approved ones, and the store is unchanged. *)
Theorem admin_stats_add_up (token : claims) (db : DB) :
  Forall approved_is_bool (testimonials db) →
  let total := length (testimonials db) in
  let pending := length (with_approved false db) in
  let approved := length (with_approved true db) in
  get_admin_stats token db
    = (Ok {[ "total_testimonials" := VInt (Z.of_nat total);
             "pending_testimonials" := VInt (Z.of_nat pending);
             "approved_testimonials" := VInt (Z.of_nat approved);
             "total_wars" := VInt (Z.of_nat (length (wars db)));
             "total_gallery" := VInt (Z.of_nat (length (gallery db))) ]},
       db)
  ∧ total = (pending + approved)%nat.
Proof.
  intros Hbool total pending approved. split.
  - unfold get_admin_stats, bind.
    repeat (first [rewrite count_all | rewrite count_singleton]; cbv beta iota).
    reflexivity.
  - by apply approved_partition.
Qed.

Lemma admin_stats_add_up_witness :
  get_admin_stats ∅ sample_db
    = (Ok {[ "total_testimonials" := VInt 1;
             "pending_testimonials" := VInt 1;
             "approved_testimonials" := VInt 0;
             "total_wars" := VInt 2;
             "total_gallery" := VInt 1 ]},
       sample_db)
  ∧ 1%nat = (1 + 0)%nat.
Proof.
  apply (admin_stats_add_up ∅ sample_db).
  repeat constructor. by eexists.
Defined.

(** Without the proviso the counts need not add up: a document whose
    [approved] field is missing is neither pending nor approved. *)
Example admin_stats_untyped_document :
  get_admin_stats ∅ (mkDB [] [] [] [ {[ "id" := VStr "t0" ]} ] 1)
    = (Ok {[ "total_testimonials" := VInt 1;
             "pending_testimonials" := VInt 0;
             "approved_testimonials" := VInt 0;
             "total_wars" := VInt 0;
             "total_gallery" := VInt 0 ]},
       mkDB [] [] [] [ {[ "id" := VStr "t0" ]} ] 1).
Proof.
  unfold get_admin_stats, bind.
  repeat (first [rewrite count_all | rewrite count_singleton]; cbv beta iota).
  reflexivity.
Qed.

(** * Further properties of the handlers *)

(** ** What a route touches *)

Section frame_facts.
Implicit Types (c : collection) (cs : list collection).

Lemma writes_within_ret {A} cs (a : A) : writes_within cs (ret a).
Proof. by intros db c _. Qed.

Lemma writes_within_raise {A} cs e : writes_within cs (@raise A e).
Proof. by intros db c _. Qed.

Lemma writes_within_lift {A} cs (r : result A) : writes_within cs (lift r).
Proof. by intros db c _. Qed.

Lemma writes_within_bind {A B} cs (m : Handler A) (k : A → Handler B) :
  writes_within cs m → (∀ a, writes_within cs (k a)) → writes_within cs (bind m k).
Proof.
  intros Hm Hk db c Hc. unfold bind. specialize (Hm db c Hc).
  destruct (m db) as [[a|e] db']; simpl in *; [|done].
  by rewrite (Hk a db' c Hc).
Qed.

Lemma read_only_writes_within {A} cs (h : Handler A) : read_only h → writes_within cs h.
Proof. intros Hh db c _. by rewrite Hh. Qed.

Lemma read_only_bind {A B} (m : Handler A) (k : A → Handler B) :
  read_only m → (∀ a, read_only (k a)) → read_only (bind m k).
Proof.
  intros Hm Hk db. unfold bind. specialize (Hm db).
  destruct (m db) as [[a|e] db']; simpl in *; subst; [apply Hk|done].
Qed.

Lemma read_only_find c query key dir n :
  read_only (Mongo.find_sort_to_list c query key dir n).
Proof. by intros db. Qed.

Lemma read_only_find_one c query : read_only (Mongo.find_one c query).
Proof. by intros db. Qed.

Lemma read_only_count c query : read_only (Mongo.count_documents c query).
Proof. by intros db. Qed.

Lemma writes_within_insert_one c cs d : c ∈ cs → writes_within cs (Mongo.insert_one c d).
Proof.
  intros Hc db c' Hc'. unfold Mongo.insert_one. cbn [snd].
  rewrite get_set_coll_ne by (by intros ->). by destruct c'.
Qed.

Lemma writes_within_insert_many c cs ds :
  c ∈ cs → writes_within cs (Mongo.insert_many c ds).
Proof.
  intros Hc. induction ds as [|d ds IH]; cbn [Mongo.insert_many].
  - apply writes_within_ret.
  - apply writes_within_bind; [by apply writes_within_insert_one|done].
Qed.

Lemma writes_within_update_one c cs query fields :
  c ∈ cs → writes_within cs (Mongo.update_one c query fields).
Proof.
  intros Hc db c' Hc'. unfold Mongo.update_one.
  destruct (Mongo.update_first _ _ _) as [n l]. cbn [snd].
  apply get_set_coll_ne. by intros ->.
Qed.

Lemma writes_within_delete_one c cs query :
  c ∈ cs → writes_within cs (Mongo.delete_one c query).
Proof.
  intros Hc db c' Hc'. unfold Mongo.delete_one.
  destruct (Mongo.delete_first _ _) as [n l]. cbn [snd].
  apply get_set_coll_ne. by intros ->.
Qed.
End frame_facts.

Ltac member := repeat first [apply list_elem_of_here | apply list_elem_of_further].

Ltac frame_step :=
  first
    [ apply writes_within_ret
    | apply writes_within_raise
    | apply writes_within_lift
    | apply writes_within_insert_one; member
    | apply writes_within_insert_many; member
    | apply writes_within_update_one; member
    | apply writes_within_delete_one; member
    | apply read_only_writes_within, read_only_find
    | apply read_only_writes_within, read_only_find_one
    | apply read_only_writes_within, read_only_count
    | apply writes_within_bind; [|intros ?]
    | match goal with
      | |- writes_within _ (if ?b then _ else _) => destruct b
      | |- writes_within _ (match ?x with _ => _ end) => destruct x
      end ].

Ltac pure_step :=
  first
    [ by intros ?
    | apply read_only_find
    | apply read_only_find_one
    | apply read_only_count
    | apply read_only_bind; [|intros ?]
    | match goal with
      | |- read_only (if ?b then _ else _) => destruct b
      | |- read_only (match ?x with _ => _ end) => destruct x
      end ].

Section route_frame.
Context (env : Environment) `{PyJWT} `{Datetime} `{Pydantic} `{HTTPBearer}.
Context (rnd : Entropy).

Lemma read_only_Depends_verify_token authorization :
  read_only (Depends_verify_token env rnd authorization).
Proof. intros db. unfold Depends_verify_token. by destruct (security _). Qed.

Lemma writes_within_gated {A} cs authorization (h : claims → Handler A) :
  (∀ token, writes_within cs (h token)) →
  writes_within cs (gated env rnd authorization h).
Proof.
  intros Hh. apply writes_within_bind; [|done].
  apply read_only_writes_within, read_only_Depends_verify_token.
Qed.

Lemma read_only_gated {A} authorization (h : claims → Handler A) :
  (∀ token, read_only (h token)) → read_only (gated env rnd authorization h).
Proof.
  intros Hh. apply read_only_bind; [|done]. apply read_only_Depends_verify_token.
Qed.

Lemma writes_within_fmap {A B} cs (f : A → B) (h : Handler A) :
  writes_within cs h → writes_within cs (fmap_handler f h).
Proof. intros Hh. apply writes_within_bind; [done|]. intros a. apply writes_within_ret. Qed.

Lemma read_only_fmap {A B} (f : A → B) (h : Handler A) :
  read_only h → read_only (fmap_handler f h).
Proof. intros Hh. apply read_only_bind; [done|]. by intros a db. Qed.

Lemma writes_within_update_war war_id war_data token :
  writes_within [Wars] (update_war rnd war_id war_data token).
Proof. unfold update_war. cbv zeta. repeat frame_step. Qed.

Lemma writes_within_initialize_data :
  writes_within [Leaders; Wars; Gallery] (initialize_data rnd).
Proof.
  unfold initialize_data.
  apply writes_within_bind; [apply read_only_writes_within, read_only_count|].
  intros n. destruct (0 <? n)%nat; [apply writes_within_ret|].
  apply writes_within_bind; [apply writes_within_insert_many; member|].
  intros _. apply writes_within_bind; [apply writes_within_insert_many; member|].
  intros _. apply writes_within_bind; [apply writes_within_insert_many; member|].
  intros _. apply writes_within_ret.
Qed.

Lemma read_only_get_admin_stats token : read_only (get_admin_stats token).
Proof. unfold get_admin_stats. repeat pure_step. Qed.

(** X1. A route changes at most the collections of its own resource (wars
    routes the wars, gallery routes the gallery, testimonial routes the
    testimonials, the bootstrap the leaders, wars and gallery), whatever the
    request and whether it succeeds or fails; login, the four listings and
    the admin stats change nothing in the store at all. *)
Theorem routes_write_only_their_collections (authorization : option string)
    (req : request) :
  writes_within (writes req) (api_router env rnd authorization req)
  ∧ (writes req = [] → read_only (api_router env rnd authorization req)).
Proof.
  split.
  - destruct req; cbn [api_router writes]; apply writes_within_fmap.
    + unfold admin_login. cbv zeta. repeat frame_step.
    + unfold get_leaders. cbv zeta. repeat frame_step.
    + unfold get_wars. cbv zeta. repeat frame_step.
    + apply writes_within_gated. intros token. unfold create_war. cbv zeta. repeat frame_step.
    + apply writes_within_gated. intros token. apply writes_within_update_war.
    + apply writes_within_gated. intros token. unfold delete_war. cbv zeta. repeat frame_step.
    + unfold get_gallery. cbv zeta. repeat frame_step.
    + apply writes_within_gated. intros token. unfold add_gallery_image. cbv zeta. repeat frame_step.
    + apply writes_within_gated. intros token. unfold delete_gallery_image. cbv zeta. repeat frame_step.
    + unfold get_testimonials. cbv zeta. repeat frame_step.
    + unfold create_testimonial. cbv zeta. repeat frame_step.
    + apply writes_within_gated. intros token. unfold approve_testimonial. cbv zeta. repeat frame_step.
    + apply writes_within_gated. intros token. unfold delete_testimonial. cbv zeta. repeat frame_step.
    + apply writes_within_gated. intros token.
      apply read_only_writes_within, read_only_get_admin_stats.
    + apply writes_within_initialize_data.
  - destruct req; cbn [writes]; try discriminate; intros _; cbn [api_router];
      apply read_only_fmap.
    + unfold admin_login. cbv zeta. repeat pure_step.
    + unfold get_leaders. cbv zeta. repeat pure_step.
    + unfold get_wars. cbv zeta. repeat pure_step.
    + unfold get_gallery. cbv zeta. repeat pure_step.
    + unfold get_testimonials. cbv zeta. repeat pure_step.
    + apply read_only_gated. intros token. apply read_only_get_admin_stats.
Qed.

End route_frame.

Lemma routes_write_only_their_collections_witness :
  read_only (api_router Reference.env Reference.rnd None GET_admin_stats).
Proof.
  apply (proj2 (routes_write_only_their_collections Reference.env Reference.rnd
                  None GET_admin_stats)).
  reflexivity.
Defined.

(** ** What the gate checks *)

Section gate_facts.
Context (env : Environment) `{J : PyJWT} `{Datetime} `{Pydantic} `{HTTPBearer}.

Lemma behind_gate_runs (rnd : Entropy) req h credentials payload db :
  behind_gate rnd req = Some h →
  jwt_decode credentials (JWT_SECRET env) (jwt_clock rnd) = Decoded payload →
  api_router env rnd (Some credentials) req db = h payload db.
Proof.
  intros Hh Hdec.
  destruct req; cbn [behind_gate] in Hh; try discriminate Hh;
    injection Hh as <-; cbn [api_router]; by apply gated_runs.
Qed.

Lemma behind_gate_expired (rnd : Entropy) req h credentials db :
  behind_gate rnd req = Some h →
  jwt_decode credentials (JWT_SECRET env) (jwt_clock rnd) = ExpiredSignatureError →
  api_router env rnd (Some credentials) req db
    = (Raise (HTTPException 401 "Token expired"), db).
Proof.
  intros Hh Hdec.
  destruct req; cbn [behind_gate] in Hh; try discriminate Hh; cbn [api_router];
    unfold fmap_handler, gated, bind, Depends_verify_token, security, verify_token;
    by rewrite Hdec.
Qed.

Lemma behind_gate_ignores_payload (rnd : Entropy) req h (p1 p2 : claims) db :
  behind_gate rnd req = Some h → h p1 db = h p2 db.
Proof.
  intros Hh.
  destruct req; cbn [behind_gate] in Hh; try discriminate Hh;
    by injection Hh as <-.
Qed.

(** X2. The gate checks the signature and the expiry of the token and
    nothing else: on a route declared with [Depends(verify_token)], a
    request whose token decodes runs the handler, and the handler's outcome
    does not depend on the decoded claims.  No route looks at the subject
    or at the role of the token. *)
Theorem gate_ignores_claims (rnd : Entropy) (req : request)
    (h : claims → Handler response) (c1 c2 : string) (p1 p2 : claims) (db : DB) :
  behind_gate rnd req = Some h →
  jwt_decode c1 (JWT_SECRET env) (jwt_clock rnd) = Decoded p1 →
  jwt_decode c2 (JWT_SECRET env) (jwt_clock rnd) = Decoded p2 →
  api_router env rnd (Some c1) req db = h p1 db
  ∧ api_router env rnd (Some c1) req db = api_router env rnd (Some c2) req db.
Proof.
  intros Hh Hc1 Hc2.
  rewrite (behind_gate_runs rnd req h c1 p1 db Hh Hc1).
  rewrite (behind_gate_runs rnd req h c2 p2 db Hh Hc2).
  split; [done|]. by apply (behind_gate_ignores_payload rnd req).
Qed.

(** X3. The token returned by a successful login opens every gated route
    for the next 24 hours: a request that presents it while the clock is
    before the expiry runs the handler.  From the expiry on, the same token
    is refused with 401 "Token expired" and the store is not touched. *)
Theorem login_token_opens_gate_until_expiry `{!PyJWTSpec J} (rnd later : Entropy)
    (login_data : AdminLogin.t) (t : AdminToken.t) (db0 db1 : DB)
    (req : request) (h : claims → Handler response) (db : DB) :
  admin_login env rnd login_data db0 = (Ok t, db1) →
  behind_gate later req = Some h →
  (jwt_clock later < utcnow rnd 0 + 86400 →
     ∃ payload, api_router env later (Some (AdminToken.access_token t)) req db
                = h payload db)
  ∧ (utcnow rnd 0 + 86400 ≤ jwt_clock later →
     api_router env later (Some (AdminToken.access_token t)) req db
       = (Raise (HTTPException 401 "Token expired"), db)).
Proof.
  intros Hlogin Hh. unfold admin_login in Hlogin.
  destruct (_ && _); [|discriminate Hlogin].
  injection Hlogin as <- _. cbn [AdminToken.new AdminToken.access_token].
  unfold create_access_token, hours.
  change (utcnow rnd 0 + 24 * 3600) with (utcnow rnd 0 + 86400).
  split; intros Hclock.
  - eexists. apply (behind_gate_runs later req h _ _ db Hh).
    by apply (jwt_decode_encode_live _ _ (utcnow rnd 0 + 86400));
      [rewrite lookup_insert_eq|].
  - apply (behind_gate_expired later req h _ db Hh).
    by apply (jwt_decode_encode_expired _ _ (utcnow rnd 0 + 86400));
      [rewrite lookup_insert_eq|].
Qed.
End gate_facts.

Lemma gate_ignores_claims_witness :
  api_router Reference.env Reference.rnd (Some guest_token) (DELETE_wars "w1") sample_db
  = api_router Reference.env Reference.rnd (Some admin_token) (DELETE_wars "w1") sample_db.
Proof.
  eapply proj2.
  eapply (gate_ignores_claims Reference.env Reference.rnd (DELETE_wars "w1") _
            guest_token admin_token _ _ sample_db).
  - reflexivity.
  - apply (jwt_decode_encode_live _ _ 2000); [reflexivity|]. cbn. lia.
  - apply (jwt_decode_encode_live _ _ 3000); [reflexivity|]. cbn. lia.
Defined.

Lemma login_token_opens_gate_until_expiry_witness :
  (∃ payload,
     api_router Reference.env Reference.rnd
       (Some (create_access_token Reference.env Reference.rnd
                {[ "sub" := VStr "admin"; "role" := VStr "admin" ]} (hours 24)))
       GET_admin_stats sample_db
     = fmap_handler RDict (get_admin_stats payload) sample_db)
  ∧ api_router Reference.env next_day
      (Some (create_access_token Reference.env Reference.rnd
               {[ "sub" := VStr "admin"; "role" := VStr "admin" ]} (hours 24)))
      GET_admin_stats sample_db
    = (Raise (HTTPException 401 "Token expired"), sample_db).
Proof.
  split.
  - apply (proj1 (login_token_opens_gate_until_expiry Reference.env
                    Reference.rnd Reference.rnd (AdminLogin.mk "admin" "portugal")
                    (AdminToken.new _) sample_db sample_db GET_admin_stats _ sample_db
                    eq_refl eq_refl)).
    cbn. lia.
  - apply (proj2 (login_token_opens_gate_until_expiry Reference.env
                    Reference.rnd next_day (AdminLogin.mk "admin" "portugal")
                    (AdminToken.new _) sample_db sample_db GET_admin_stats _ sample_db
                    eq_refl eq_refl)).
    cbn. lia.
Defined.

(** ** Wars: how create, list, update and delete compose *)

Lemma project_with_oid n (d : doc) :
  d !! "_id" = None → Mongo.project_no_id (Mongo.with_oid n d) = d.
Proof.
  intros Hd. unfold Mongo.project_no_id, Mongo.with_oid. rewrite Hd.
  by rewrite delete_insert_eq, delete_id.
Qed.

Lemma first_sorted_all key dir n all res :
  first_sorted key dir n all res → (length all ≤ n)%nat → res ≡ₚ all.
Proof.
  intros (rest & _ & Hperm & Hlen) Hfew.
  assert (rest = []) as ->.
  { apply Permutation_length in Hperm. rewrite length_app in Hperm.
    apply nil_length_inv. lia. }
  by rewrite app_nil_r in Hperm.
Qed.

Lemma create_war_store rnd war_data token db :
  create_war rnd war_data token db
  = (Ok (WarStatistic.mk (uuid4 rnd 0)
           (WarStatisticCreate.opponent war_data) (WarStatisticCreate.wins war_data)
           (WarStatisticCreate.losses war_data) (WarStatisticCreate.order war_data)),
     with_war
       (Mongo.with_oid (next_oid db)
          (WarStatistic.model_dump
             (WarStatistic.mk (uuid4 rnd 0)
                (WarStatisticCreate.opponent war_data) (WarStatisticCreate.wins war_data)
                (WarStatisticCreate.losses war_data) (WarStatisticCreate.order war_data))))
       db).
Proof. reflexivity. Qed.

(** X4. A war created on a store that holds fewer than 100 wars is in the
    very next listing: the listing returns the record as it was returned
    by the create, at its place in ascending [order] among the other wars,
    one more document than before. *)
Theorem created_war_is_listed (rnd : Entropy) (war_data : WarStatisticCreate.t)
    (token : claims) (db : DB) :
  (length (wars db) < 100)%nat →
  ∃ w db' res,
    create_war rnd war_data token db = (Ok w, db')
    ∧ get_wars db' = (Ok res, db')
    ∧ WarStatistic.model_dump w ∈ res
    ∧ res ≡ₚ Mongo.project_no_id <$> wars db'
    ∧ StronglySorted (Mongo.before "order" Mongo.Ascending) res
    ∧ length res = S (length (wars db)).
Proof.
  intros Hfew. rewrite create_war_store.
  eexists _, _. 
  destruct (listing_as_stored_spec "order" Wars
              (with_war (Mongo.with_oid (next_oid db)
                 (WarStatistic.model_dump
                    (WarStatistic.mk (uuid4 rnd 0)
                       (WarStatisticCreate.opponent war_data)
                       (WarStatisticCreate.wins war_data)
                       (WarStatisticCreate.losses war_data)
                       (WarStatisticCreate.order war_data)))) db))
    as (res & Hres & Hfirst & _ & _); [done|].
  exists res. split; [reflexivity|]. split; [exact Hres|].
  assert (res ≡ₚ Mongo.project_no_id <$>
            wars (with_war (Mongo.with_oid (next_oid db)
                 (WarStatistic.model_dump
                    (WarStatistic.mk (uuid4 rnd 0)
                       (WarStatisticCreate.opponent war_data)
                       (WarStatisticCreate.wins war_data)
                       (WarStatisticCreate.losses war_data)
                       (WarStatisticCreate.order war_data)))) db)) as Hperm.
  { apply (first_sorted_all _ _ _ _ _ Hfirst).
    cbn [get_coll with_war wars]. rewrite length_fmap, length_app. simpl. lia. }
  split; [|split; [done|split]].
  - rewrite Hperm. cbn [with_war wars]. rewrite fmap_app, elem_of_app. right.
    cbn [fmap list_fmap]. rewrite project_with_oid by done. apply list_elem_of_here.
  - destruct Hfirst as (rest & Hsorted & Hperm' & _).
    by apply StronglySorted_app_1_l in Hsorted.
  - rewrite Hperm. cbn [with_war wars]. rewrite length_fmap, length_app. simpl. lia.
Qed.

Lemma created_war_is_listed_witness :
  ∃ w db' res,
    create_war Reference.rnd (WarStatisticCreate.mk "Spain" 3 1 7) ∅ sample_db = (Ok w, db')
    ∧ get_wars db' = (Ok res, db')
    ∧ WarStatistic.model_dump w ∈ res
    ∧ res ≡ₚ Mongo.project_no_id <$> wars db'
    ∧ StronglySorted (Mongo.before "order" Mongo.Ascending) res
    ∧ length res = S (length (wars sample_db)).
Proof.
  apply (created_war_is_listed Reference.rnd (WarStatisticCreate.mk "Spain" 3 1 7)
           ∅ sample_db).
  simpl. lia.
Defined.

Section update_war_more.
Context `{P : Pydantic} (rnd : Entropy).

Lemma update_war_store war_id war_data token db :
  (Forall (λ d, ¬ has_id war_id d) (wars db)
   ∧ update_war rnd war_id war_data token db
     = (Raise (HTTPException 404 "War not found"), db))
  ∨ (∃ l1 d l2,
       first_with_id war_id (wars db) l1 d l2
       ∧ update_war rnd war_id war_data token db
         = (WarStatistic.validate (uuid4 rnd 0)
              (Mongo.project_no_id (update_data_of war_data ∪ d)),
            set_coll Wars (l1 ++ (update_data_of war_data ∪ d) :: l2) db)).
Proof.
  destruct (decide (Exists (has_id war_id) (wars db))) as [Hex|Hno].
  - right. destruct (split_first_with_id _ _ Hex) as (l1 & d & l2 & Hhit).
    exists l1, d, l2. split; [done|]. by apply update_war_hit.
  - left. apply not_Exists_Forall in Hno; [|apply _].
    split; [done|]. by apply update_war_miss.
Qed.

Lemma update_data_of_empty : update_data_of empty_update = ∅.
Proof.
  apply map_eq. intros k. rewrite update_data_lookup, lookup_empty.
  unfold patch_field. simpl. by repeat (destruct (decide _); [done|]).
Qed.

(** X5. A partial update that provides no field never changes the store,
    whether the war exists (the record is read back and returned) or not
    (404): with nothing to set, no write is issued. *)
Theorem empty_update_changes_nothing (war_id : string) (token : claims) (db : DB) :
  (update_war rnd war_id empty_update token db).2 = db.
Proof.
  destruct (update_war_store war_id empty_update token db)
    as [[_ ->]|(l1 & d & l2 & (Hwars & _ & _) & ->)]; [done|].
  cbn [snd]. rewrite update_data_of_empty, (left_id_L ∅ (∪)), <- Hwars.
  by destruct db.
Qed.

Lemma validate_lookups fresh_id (d : doc) i o w l r :
  d !! "id" = Some (VStr i) → d !! "opponent" = Some (VStr o) →
  d !! "wins" = Some (VInt w) → d !! "losses" = Some (VInt l) →
  d !! "order" = Some (VInt r) →
  PydanticSpec P →
  WarStatistic.validate fresh_id d = Ok (WarStatistic.mk i o w l r).
Proof.
  intros Hi Ho Hw Hl Hr HP. unfold WarStatistic.validate.
  rewrite Hi, Ho, Hw, Hl, Hr. simpl.
  by rewrite !to_str_VStr, !to_int_VInt.
Qed.

Lemma validate_without_opponent fresh_id (d : doc) :
  d !! "opponent" = None → WarStatistic.validate fresh_id d = Raise ValidationError.
Proof.
  intros Ho. unfold WarStatistic.validate. rewrite Ho. simpl.
  by destruct (match d !! "id" with Some v => to_str v | None => Some fresh_id end).
Qed.

(** X6. Updating a well-formed war record returns the record with every
    provided field replaced and every other field kept, and that is also
    exactly what the store then holds for it: reading the stored document
    back gives the returned record. *)
Theorem update_war_returns_patched_record `{!PydanticSpec P}
    (war_id : string) (war_data : WarStatisticUpdate.t) (token : claims) (db : DB)
    (l1 : list doc) (d : doc) (l2 : list doc) (w : WarStatistic.t) :
  first_with_id war_id (wars db) l1 d l2 →
  Mongo.project_no_id d = WarStatistic.model_dump w →
  ∃ d',
    update_war rnd war_id war_data token db
      = (Ok (patched war_data w), set_coll Wars (l1 ++ d' :: l2) db)
    ∧ Mongo.project_no_id d' = WarStatistic.model_dump (patched war_data w)
    ∧ d' !! "_id" = d !! "_id".
Proof.
  intros Hhit Hd. exists (update_data_of war_data ∪ d).
  assert (∀ k, k ≠ "_id" → d !! k = WarStatistic.model_dump w !! k) as Hlook.
  { intros k Hk. rewrite <- Hd. unfold Mongo.project_no_id.
    by rewrite lookup_delete_ne. }
  assert (Mongo.project_no_id (update_data_of war_data ∪ d)
          = WarStatistic.model_dump (patched war_data w)) as Hstored.
  { apply map_eq. intros k. unfold Mongo.project_no_id.
    destruct (decide (k = "_id")) as [->|Hk].
    - by rewrite lookup_delete_eq.
    - rewrite lookup_delete_ne, lookup_union, update_data_lookup, (Hlook k) by done.
      unfold patch_field, patched, WarStatistic.model_dump.
      destruct war_data as [o wi lo r], w as [i0 o0 w0 l0 r0]. simpl.
      destruct (decide (k = "opponent")) as [->|?];
        [destruct o; by simplify_map_eq|].
      destruct (decide (k = "wins")) as [->|?];
        [destruct wi; by simplify_map_eq|].
      destruct (decide (k = "losses")) as [->|?];
        [destruct lo; by simplify_map_eq|].
      destruct (decide (k = "order")) as [->|?];
        [destruct r; by simplify_map_eq|].
      destruct (decide (k = "id")) as [->|?]; by simplify_map_eq. }
  split; [|split; [done|]].
  - rewrite (update_war_hit rnd _ _ _ _ _ _ _ Hhit), Hstored. f_equal.
    destruct (patched war_data w) as [i o wi lo r].
    by apply validate_lookups.
  - by rewrite lookup_union_r by (by rewrite update_data_lookup).
Qed.

(** X7. The update writes before it validates.  When the stored record
    has no [opponent] and the request provides none, the request fails with
    a validation error, and yet the fields it did provide have been written
    to the stored record. *)
Theorem update_war_writes_before_validating
    (war_id : string) (war_data : WarStatisticUpdate.t) (token : claims) (db : DB)
    (l1 : list doc) (d : doc) (l2 : list doc) :
  first_with_id war_id (wars db) l1 d l2 →
  d !! "opponent" = None →
  WarStatisticUpdate.opponent war_data = None →
  ∃ d',
    update_war rnd war_id war_data token db
      = (Raise ValidationError, set_coll Wars (l1 ++ d' :: l2) db)
    ∧ (∀ z, WarStatisticUpdate.wins war_data = Some z → d' !! "wins" = Some (VInt z))
    ∧ (∀ z, WarStatisticUpdate.losses war_data = Some z → d' !! "losses" = Some (VInt z))
    ∧ (∀ z, WarStatisticUpdate.order war_data = Some z → d' !! "order" = Some (VInt z)).
Proof.
  intros Hhit Hd Hu. exists (update_data_of war_data ∪ d).
  split.
  - rewrite (update_war_hit rnd _ _ _ _ _ _ _ Hhit). f_equal.
    apply validate_without_opponent. unfold Mongo.project_no_id.
    rewrite lookup_delete_ne, lookup_union, update_data_lookup by done.
    unfold patch_field. simpl. by rewrite Hu, Hd.
  - repeat split; intros z Hz;
      rewrite lookup_union, update_data_lookup; unfold patch_field; simpl;
      rewrite Hz; simpl;
      match goal with |- _ ∪ ?o = _ => by destruct o end.
Qed.
End update_war_more.

Lemma update_war_returns_patched_record_witness :
  ∃ d',
    update_war Reference.rnd "w2" (WarStatisticUpdate.mk None (Some 4) None None) ∅ sample_db
      = (Ok (patched (WarStatisticUpdate.mk None (Some 4) None None)
               (WarStatistic.mk "w2" "Spain" 5 1 7)),
         set_coll Wars ([sample_war "w1" 3] ++ d' :: []) sample_db)
    ∧ Mongo.project_no_id d'
      = WarStatistic.model_dump
          (patched (WarStatisticUpdate.mk None (Some 4) None None)
             (WarStatistic.mk "w2" "Spain" 5 1 7))
    ∧ d' !! "_id" = sample_war "w2" 5 !! "_id".
Proof.
  apply (update_war_returns_patched_record Reference.rnd "w2"
           (WarStatisticUpdate.mk None (Some 4) None None) ∅ sample_db
           [sample_war "w1" 3] (sample_war "w2" 5) []
           (WarStatistic.mk "w2" "Spain" 5 1 7)).
  - split; [reflexivity|]. split; [|by vm_compute].
    repeat constructor; by vm_compute.
  - reflexivity.
Defined.

Lemma update_war_writes_before_validating_witness :
  ∃ d',
    update_war Reference.rnd "w0" (WarStatisticUpdate.mk None (Some 9) None None) ∅ broken_db
      = (Raise ValidationError, set_coll Wars ([] ++ d' :: []) broken_db)
    ∧ (∀ z, Some 9 = Some z → d' !! "wins" = Some (VInt z))
    ∧ (∀ z, @None Z = Some z → d' !! "losses" = Some (VInt z))
    ∧ (∀ z, @None Z = Some z → d' !! "order" = Some (VInt z)).
Proof.
  apply (update_war_writes_before_validating Reference.rnd "w0"
           (WarStatisticUpdate.mk None (Some 9) None None) ∅ broken_db
           [] broken_war []).
  - split; [reflexivity|]. split; [constructor|by vm_compute].
  - by vm_compute.
  - reflexivity.
Defined.

Lemma delete_war_store war_id token db :
  (Forall (λ d, ¬ has_id war_id d) (wars db)
   ∧ delete_war war_id token db = (Raise (HTTPException 404 "War not found"), db))
  ∨ (∃ l1 d l2,
       first_with_id war_id (wars db) l1 d l2
       ∧ delete_war war_id token db
         = (Ok "War deleted successfully", set_coll Wars (l1 ++ l2) db)).
Proof.
  destruct (decide (Exists (has_id war_id) (wars db))) as [Hex|Hno].
  - right. destruct (split_first_with_id _ _ Hex) as (l1 & d & l2 & Hhit).
    exists l1, d, l2. split; [done|].
    unfold delete_war, bind. by rewrite (delete_one_hit Wars _ _ _ _ _ Hhit).
  - left. apply not_Exists_Forall in Hno; [|apply _]. split; [done|].
    unfold delete_war, bind. by rewrite (delete_one_miss Wars _ _ Hno).
Qed.

(** X8. Deleting a war right after creating it, by the identifier the
    create returned, succeeds and leaves the wars collection exactly as it
    was before the create, provided the new identifier was not in use. *)
Theorem created_war_can_be_deleted (rnd : Entropy) (war_data : WarStatisticCreate.t)
    (token token' : claims) (db : DB) :
  Forall (λ d, ¬ has_id (uuid4 rnd 0) d) (wars db) →
  ∃ w db',
    create_war rnd war_data token db = (Ok w, db')
    ∧ delete_war (WarStatistic.id w) token' db'
      = (Ok "War deleted successfully",
         mkDB (leaders db) (wars db) (gallery db) (testimonials db)
              (N.succ (next_oid db))).
Proof.
  intros Hfresh. rewrite create_war_store. eexists _, _. split; [reflexivity|].
  cbn [WarStatistic.id]. unfold delete_war, bind.
  erewrite (delete_one_hit Wars _ _ (wars db) _ []).
  - cbn [with_war set_coll leaders wars gallery testimonials next_oid].
    by rewrite app_nil_r.
  - split; [reflexivity|]. split; [done|].
    unfold has_id. by rewrite with_oid_lookup_ne.
Qed.

Lemma created_war_can_be_deleted_witness :
  ∃ w db',
    create_war Reference.rnd (WarStatisticCreate.mk "Spain" 3 1 7) ∅ sample_db = (Ok w, db')
    ∧ delete_war (WarStatistic.id w) ∅ db'
      = (Ok "War deleted successfully",
         mkDB (leaders sample_db) (wars sample_db) (gallery sample_db)
              (testimonials sample_db) (N.succ (next_oid sample_db))).
Proof.
  apply (created_war_can_be_deleted Reference.rnd (WarStatisticCreate.mk "Spain" 3 1 7)
           ∅ ∅ sample_db).
  repeat constructor; by vm_compute.
Defined.

(** ** Identifiers stay unique *)

Lemma ids_replace l1 (d d' : doc) l2 :
  d' !! "id" = d !! "id" → ids (l1 ++ d' :: l2) = ids (l1 ++ d :: l2).
Proof.
  intros Hid. unfold ids. rewrite !omap_app. f_equal. cbn [omap list_omap].
  by rewrite Hid.
Qed.

Lemma ids_remove_sublist l1 (d : doc) l2 : ids (l1 ++ l2) `sublist_of` ids (l1 ++ d :: l2).
Proof.
  unfold ids. rewrite !omap_app. apply sublist_app; [done|].
  cbn [omap list_omap]. destruct (d !! "id"); [by apply sublist_cons|done].
Qed.

(** X9. The wars keep distinct identifiers.  If no two war documents
    share an [id], this is still so after a create whose new uuid is not in
    use, after any update (which never changes an [id]: the list of
    identifiers stays the same) and after any delete. *)
Theorem war_ids_stay_unique `{Pydantic} (rnd : Entropy) (db : DB) :
  NoDup (ids (wars db)) →
  (∀ war_data token,
     VStr (uuid4 rnd 0) ∉ ids (wars db) →
     NoDup (ids (wars (create_war rnd war_data token db).2)))
  ∧ (∀ war_id war_data token,
       ids (wars (update_war rnd war_id war_data token db).2) = ids (wars db))
  ∧ (∀ war_id token, NoDup (ids (wars (delete_war war_id token db).2))).
Proof.
  intros Hnodup. split; [|split].
  - intros war_data token Hfresh. rewrite create_war_store.
    cbn [snd with_war wars]. unfold ids. rewrite omap_app.
    cbn [omap list_omap]. rewrite with_oid_lookup_ne by done.
    change (WarStatistic.model_dump _ !! "id") with (Some (VStr (uuid4 rnd 0))).
    cbn [mbind option_bind app]. apply NoDup_app. split; [done|].
    split; [|apply NoDup_singleton].
    intros x Hx Hin. apply list_elem_of_singleton in Hin as ->. by apply Hfresh.
  - intros war_id war_data token.
    destruct (update_war_store rnd war_id war_data token db)
      as [[_ ->]|(l1 & d & l2 & (Hwars & _ & _) & ->)]; [done|].
    cbn [snd]. rewrite Hwars.
    change (wars (set_coll Wars ?l db)) with l.
    apply ids_replace.
    by rewrite lookup_union_r by (by rewrite update_data_lookup).
  - intros war_id token.
    destruct (delete_war_store war_id token db)
      as [[_ ->]|(l1 & d & l2 & (Hwars & _ & _) & ->)]; [done|].
    cbn [snd]. change (wars (set_coll Wars ?l db)) with l.
    rewrite Hwars in Hnodup.
    apply (sublist_NoDup _ _ Hnodup), ids_remove_sublist.
Qed.

Lemma war_ids_stay_unique_witness :
  NoDup (ids (wars (create_war Reference.rnd (WarStatisticCreate.mk "Spain" 3 1 7)
                      ∅ sample_db).2))
  ∧ NoDup (ids (wars (delete_war "w1" ∅ sample_db).2)).
Proof.
  assert (NoDup (ids (wars sample_db))) as Hnodup.
  { apply (bool_decide_unpack _). by vm_compute. }
  destruct (war_ids_stay_unique Reference.rnd sample_db Hnodup) as (Hc & _ & Hd).
  split; [apply Hc|apply Hd].
  apply (bool_decide_unpack _). by vm_compute.
Defined.

(** ** Testimonials: moderation *)

Lemma approve_testimonial_store i token db :
  (Forall (λ d, ¬ has_id i d) (testimonials db)
   ∧ approve_testimonial i token db
     = (Raise (HTTPException 404 "Testimonial not found"), db))
  ∨ (∃ l1 d l2,
       first_with_id i (testimonials db) l1 d l2
       ∧ approve_testimonial i token db
         = (Ok "Testimonial approved",
            set_coll Testimonials (l1 ++ <["approved" := VBool true]> d :: l2) db)).
Proof.
  destruct (decide (Exists (has_id i) (testimonials db))) as [Hex|Hno].
  - right. destruct (split_first_with_id _ _ Hex) as (l1 & d & l2 & Hhit).
    exists l1, d, l2. split; [done|]. by apply approve_testimonial_hit.
  - left. apply not_Exists_Forall in Hno; [|apply _]. split; [done|].
    by apply approve_testimonial_miss.
Qed.

(** X10. Approving is idempotent, and safe on a missing identifier.  A
    second approve of the same testimonial gives the same answer and the
    same store as the first; approving an identifier that no testimonial
    carries fails with 404 and changes nothing. *)
Theorem approve_is_idempotent (i : string) (token token' : claims) (db : DB) :
  approve_testimonial i token' (approve_testimonial i token db).2
  = approve_testimonial i token db
  ∧ (Forall (λ d, ¬ has_id i d) (testimonials db) →
     approve_testimonial i token db
       = (Raise (HTTPException 404 "Testimonial not found"), db)).
Proof.
  split; [|apply approve_testimonial_miss].
  destruct (approve_testimonial_store i token db)
    as [[Hmiss ->]|(l1 & d & l2 & Hhit & ->)].
  - by apply approve_testimonial_miss.
  - cbn [snd].
    assert (first_with_id i
              (testimonials
                 (set_coll Testimonials (l1 ++ <["approved" := VBool true]> d :: l2) db))
              l1 (<["approved" := VBool true]> d) l2) as Hhit'.
    { destruct Hhit as (_ & Hl1 & Hd). split; [reflexivity|]. split; [done|].
      unfold has_id. by rewrite lookup_insert_ne. }
    rewrite (approve_testimonial_hit _ _ _ _ _ _ Hhit').
    rewrite insert_insert_eq. by destruct db.
Qed.

Lemma approve_is_idempotent_witness :
  approve_testimonial "t9" ∅ sample_db
  = (Raise (HTTPException 404 "Testimonial not found"), sample_db).
Proof.
  apply (proj2 (approve_is_idempotent "t9" ∅ ∅ sample_db)).
  repeat constructor; by vm_compute.
Defined.

(** X11. A new testimonial waits for approval: creating one never changes
    what the default listing (approved only) returns. *)
Theorem new_testimonial_awaits_approval `{Datetime} (rnd : Entropy)
    (testimonial_data : TestimonialCreate.t) (db : DB) :
  ∃ x db',
    create_testimonial rnd testimonial_data db = (Ok x, db')
    ∧ (get_testimonials true db').1 = (get_testimonials true db).1.
Proof.
  destruct (create_testimonial_spec rnd testimonial_data db) as (d & -> & Happ & _).
  eexists _, _. split; [reflexivity|].
  unfold get_testimonials, bind, Mongo.find_sort_to_list, lift.
  cbn [fst get_coll with_testimonial testimonials].
  rewrite filter_app, filter_cons_False, filter_nil, app_nil_r; [done|].
  intros Hm. apply (proj1 (matches_visible true d)) in Hm.
  unfold visible in Hm. congruence.
Qed.

(** ** Listings after a write *)

Section listing_member.
Context `{D : Datetime}.

Lemma Forall2_revived_member res out (d : doc) :
  Forall2 revived res out → d ∈ res → ∃ d', d' ∈ out ∧ revived d d'.
Proof.
  intros Hrev Hd. apply list_elem_of_lookup_1 in Hd as [i Hi].
  destruct (Forall2_lookup_l _ _ _ _ _ Hrev Hi) as (d' & Hi' & Hdd').
  exists d'. split; [by apply list_elem_of_lookup_2 in Hi'|done].
Qed.

Lemma listing_member (P : doc → Prop) `{∀ d, Decision (P d)} query key dir c db d :
  key ≠ "_id" →
  (∀ d, Is_true (Mongo.matches query d) ↔ P d) →
  (length (get_coll c db) ≤ 100)%nat →
  d ∈ get_coll c db → P d →
  ∃ res,
    bind (Mongo.find_sort_to_list c query key dir 100) (λ l, lift (revive_all l)) db
      = (revive_all res, db)
    ∧ Mongo.project_no_id d ∈ res
    ∧ (Forall created_at_readable (get_coll c db) →
       ∃ out d', revive_all res = Ok out ∧ d' ∈ out
                 ∧ revived (Mongo.project_no_id d) d').
Proof.
  intros Hkey HP Hfew Hd HPd.
  destruct (listing_spec P query key dir c db Hkey HP)
    as (res & Hres & Hfirst & _ & _ & Hok).
  assert (res ≡ₚ Mongo.project_no_id <$> filter P (get_coll c db)) as Hperm.
  { apply (first_sorted_all _ _ _ _ _ Hfirst).
    rewrite length_fmap. pose proof (length_filter P (get_coll c db)). lia. }
  assert (Mongo.project_no_id d ∈ res) as Hin.
  { rewrite Hperm. apply list_elem_of_fmap_2, list_elem_of_filter. by split. }
  exists res. split; [done|]. split; [done|].
  intros Hread. destruct (Hok Hread) as (out & Hout & Hrev & _).
  destruct (Forall2_revived_member _ _ _ Hrev Hin) as (d' & Hd' & Hdd').
  by exists out, d'.
Qed.
End listing_member.

(** X12. An approved testimonial shows up in the default listing: after
    the approve, on a store with at most 100 testimonials whose dates are
    readable, the listing contains the approved testimonial (with its date
    parsed and [_id] stripped). *)
Theorem approved_testimonial_is_listed `{Datetime} (i : string) (token : claims)
    (db : DB) (l1 : list doc) (d : doc) (l2 : list doc) :
  first_with_id i (testimonials db) l1 d l2 →
  (length (testimonials db) ≤ 100)%nat →
  Forall created_at_readable (testimonials db) →
  ∃ db' out d',
    approve_testimonial i token db = (Ok "Testimonial approved", db')
    ∧ get_testimonials true db' = (Ok out, db')
    ∧ d' ∈ out
    ∧ revived (Mongo.project_no_id (<["approved" := VBool true]> d)) d'
    ∧ d' !! "approved" = Some (VBool true)
    ∧ d' !! "id" = Some (VStr i).
Proof.
  intros Hhit Hfew Hread.
  rewrite (approve_testimonial_hit _ _ _ _ _ _ Hhit).
  destruct Hhit as (Hl & _ & Hd). rewrite Hl in Hfew, Hread.
  set (d1 := <["approved" := VBool true]> d).
  set (db' := set_coll Testimonials (l1 ++ d1 :: l2) db).
  assert (get_coll Testimonials db' = l1 ++ d1 :: l2) as Hcoll by done.
  destruct (listing_member (visible true) {[ "approved" := VBool true ]}
              "created_at" Mongo.Descending Testimonials db' d1)
    as (res & Hres & _ & Hok).
  - done.
  - apply (matches_visible true).
  - rewrite Hcoll. rewrite !length_app in *. simpl in *. lia.
  - rewrite Hcoll. apply elem_of_app. right. apply list_elem_of_here.
  - unfold visible, d1. apply lookup_insert_eq.
  - destruct Hok as (out & d' & Hout & Hd' & Hrev).
    { rewrite Hcoll. apply Forall_app in Hread as [Hr1 Hr2].
      apply Forall_cons in Hr2 as [Hrd Hr2].
      apply Forall_app. split; [done|]. constructor; [|done].
      intros s. unfold d1. rewrite lookup_insert_ne by done. apply Hrd. }
    exists db', out, d'. split; [done|].
    split; [by rewrite <- Hout|]. split; [done|]. split; [done|].
    rewrite !(revived_lookup_ne _ _ _ Hrev) by done.
    unfold Mongo.project_no_id, d1. rewrite !lookup_delete_ne by done.
    rewrite lookup_insert_eq, lookup_insert_ne by done. by split.
Qed.

Lemma approved_testimonial_is_listed_witness :
  ∃ db' out d',
    approve_testimonial "t1" ∅ sample_db = (Ok "Testimonial approved", db')
    ∧ get_testimonials true db' = (Ok out, db')
    ∧ d' ∈ out
    ∧ revived (Mongo.project_no_id
                 (<["approved" := VBool true]>
                    ({[ "id" := VStr "t1"; "content" := VStr "Boa!";
                        "approved" := VBool false;
                        "created_at" := VStr (isoformat 6) ]} : doc))) d'
    ∧ d' !! "approved" = Some (VBool true)
    ∧ d' !! "id" = Some (VStr "t1").
Proof.
  apply (approved_testimonial_is_listed "t1" ∅ sample_db [] _ []).
  - split; [reflexivity|]. split; [constructor|by vm_compute].
  - simpl. lia.
  - repeat constructor. intros s [= <-]. vm_compute. by eexists.
Defined.

(** ** The gallery *)

Lemma add_gallery_image_store `{Datetime} rnd image_data token db :
  add_gallery_image rnd image_data token db
  = (Ok (GalleryImage.mk (uuid4 rnd 0) (GalleryImageCreate.image_url image_data)
           (utcnow rnd 0)),
     set_coll Gallery
       (gallery db ++
          [Mongo.with_oid (next_oid db)
             (<["created_at" := VStr (isoformat (utcnow rnd 0))]>
                (GalleryImage.model_dump
                   (GalleryImage.mk (uuid4 rnd 0)
                      (GalleryImageCreate.image_url image_data) (utcnow rnd 0))))])
       (mkDB (leaders db) (wars db) (gallery db) (testimonials db)
          (N.succ (next_oid db)))).
Proof. reflexivity. Qed.

(** X13. An image added to the gallery comes back from the listing as it
    was returned by the add, date included: the date is stored as an ISO
    string and parsed back on listing.  This holds on a store with fewer
    than 100 images whose dates are readable, given that [fromisoformat]
    reads what [isoformat] writes. *)
Theorem added_image_is_listed `{D : Datetime} `{!DatetimeSpec D} (rnd : Entropy)
    (image_data : GalleryImageCreate.t) (token : claims) (db : DB) :
  (length (gallery db) < 100)%nat →
  Forall created_at_readable (gallery db) →
  ∃ g db' out,
    add_gallery_image rnd image_data token db = (Ok g, db')
    ∧ get_gallery db' = (Ok out, db')
    ∧ GalleryImage.model_dump g ∈ out.
Proof.
  intros Hfew Hread. rewrite add_gallery_image_store.
  set (g := GalleryImage.mk _ _ _).
  set (stored := <["created_at" := VStr (isoformat (utcnow rnd 0))]>
                   (GalleryImage.model_dump g)).
  set (db' := set_coll Gallery _ _).
  assert (get_coll Gallery db' = gallery db ++ [Mongo.with_oid (next_oid db) stored])
    as Hcoll by done.
  assert (created_at_readable stored) as Hstored.
  { intros s. unfold stored. rewrite lookup_insert_eq. intros [= <-].
    rewrite fromisoformat_isoformat. by eexists. }
  destruct (listing_member (λ _, True) ∅ "created_at" Mongo.Descending Gallery db'
              (Mongo.with_oid (next_oid db) stored))
    as (res & Hres & _ & Hok).
  - done.
  - intros d. by rewrite matches_empty.
  - rewrite Hcoll, length_app. simpl. lia.
  - rewrite Hcoll. apply elem_of_app. right. apply list_elem_of_here.
  - done.
  - destruct Hok as (out & d' & Hout & Hd' & Hrev).
    { rewrite Hcoll. apply Forall_app. split; [done|]. constructor; [|done].
      intros s. rewrite with_oid_lookup_ne by done. apply Hstored. }
    exists g, db', out. split; [done|].
    split; [by rewrite <- Hout|].
    rewrite project_with_oid in Hrev by done.
    unfold revived, revive_created_at, stored in Hrev.
    rewrite lookup_insert_eq, fromisoformat_isoformat, insert_insert_eq in Hrev.
    rewrite insert_id in Hrev by done.
    by assert (d' = GalleryImage.model_dump g) as -> by congruence.
Qed.

Lemma added_image_is_listed_witness :
  ∃ g db' out,
    add_gallery_image Reference.rnd (GalleryImageCreate.mk "b.png") ∅ sample_db
      = (Ok g, db')
    ∧ get_gallery db' = (Ok out, db')
    ∧ GalleryImage.model_dump g ∈ out.
Proof.
  apply (added_image_is_listed Reference.rnd (GalleryImageCreate.mk "b.png") ∅ sample_db).
  - simpl. lia.
  - repeat constructor. intros s [= <-]. vm_compute. by eexists.
Defined.

(** X14. One unreadable date fails the whole listing.  On a gallery of at
    most 100 images, if some image carries under [created_at] a string that
    [fromisoformat] rejects, the listing raises [ValueError] (a server
    error) instead of returning the other images; the store is untouched. *)
Theorem unreadable_date_fails_gallery_listing `{Datetime} (db : DB) (d : doc) (s : string) :
  (length (gallery db) ≤ 100)%nat →
  d ∈ gallery db →
  d !! "created_at" = Some (VStr s) →
  fromisoformat s = None →
  get_gallery db = (Raise ValueError, db).
Proof.
  intros Hfew Hd Hs Hbad.
  destruct (listing_member (λ _, True) ∅ "created_at" Mongo.Descending Gallery db d)
    as (res & Hres & Hin & _); [done|by intros ?; rewrite matches_empty|done..|].
  change (get_gallery db = (revive_all res, db)) in Hres. rewrite Hres. f_equal.
  destruct (revive_all res) as [out|e] eqn:Hout.
  - apply revive_all_Forall2 in Hout.
    destruct (Forall2_revived_member _ _ _ Hout Hin) as (d' & _ & Hrev).
    unfold revived, revive_created_at, Mongo.project_no_id in Hrev.
    by rewrite lookup_delete_ne, Hs, Hbad in Hrev.
  - by rewrite (revive_all_raises _ _ Hout).
Qed.

Lemma unreadable_date_fails_gallery_listing_witness :
  get_gallery undated_db = (Raise ValueError, undated_db).
Proof.
  apply (unreadable_date_fails_gallery_listing undated_db
           {[ "id" := VStr "g0"; "image_url" := VStr "a.png";
              "created_at" := VStr "yesterday" ]} "yesterday").
  - simpl. lia.
  - apply list_elem_of_here.
  - reflexivity.
  - by vm_compute.
Defined.

(** ** Admin stats after moderation *)

Lemma get_admin_stats_counts token db :
  get_admin_stats token db
  = (Ok (stats_doc (length (testimonials db)) (length (with_approved false db))
           (length (with_approved true db)) (length (wars db)) (length (gallery db))),
     db).
Proof.
  unfold get_admin_stats, bind.
  repeat (first [rewrite count_all | rewrite count_singleton]; cbv beta iota).
  reflexivity.
Qed.

Lemma with_approved_created b d db :
  d !! "approved" = Some (VBool false) →
  length (with_approved b (with_testimonial d db))
  = (length (with_approved b db) + if b then 0 else 1)%nat.
Proof.
  intros Hd. unfold with_approved. cbn [with_testimonial testimonials].
  rewrite filter_app, length_app. f_equal. destruct b.
  - by rewrite filter_cons_False by (by rewrite Hd).
  - by rewrite filter_cons_True by done.
Qed.

(** X15. The admin stats follow the moderation.  Creating a testimonial
    raises the total and the pending count by one and leaves the approved
    count; approving a pending testimonial moves one from pending to
    approved and keeps the total; wars and gallery counts stay. *)
Theorem admin_stats_follow_moderation `{Datetime} (token : claims) (db : DB) :
  let total := length (testimonials db) in
  let pending := length (with_approved false db) in
  let approved := length (with_approved true db) in
  let total_wars := length (wars db) in
  let total_gallery := length (gallery db) in
  (∀ rnd testimonial_data,
     ∃ db', (create_testimonial rnd testimonial_data db).2 = db'
            ∧ get_admin_stats token db'
              = (Ok (stats_doc (S total) (S pending) approved total_wars total_gallery),
                 db'))
  ∧ (∀ i token' l1 d l2,
       first_with_id i (testimonials db) l1 d l2 →
       d !! "approved" = Some (VBool false) →
       ∃ db' pending',
         (approve_testimonial i token' db).2 = db'
         ∧ pending = S pending'
         ∧ get_admin_stats token db'
           = (Ok (stats_doc total pending' (S approved) total_wars total_gallery), db')).
Proof.
  intros total pending approved total_wars total_gallery. split.
  - intros rnd testimonial_data.
    destruct (create_testimonial_spec rnd testimonial_data db) as (d & -> & Hd & _).
    eexists. split; [reflexivity|]. cbn [snd].
    rewrite get_admin_stats_counts, !(with_approved_created _ _ _ Hd).
    cbn [with_testimonial testimonials wars gallery]. rewrite length_app.
    unfold total, pending, approved, total_wars, total_gallery. simpl length.
    by rewrite !Nat.add_1_r, Nat.add_0_r.
  - intros i token' l1 d l2 Hhit Hd.
    rewrite (approve_testimonial_hit _ _ _ _ _ _ Hhit). cbn [snd].
    destruct Hhit as (Hl & _ & _).
    exists (set_coll Testimonials (l1 ++ <["approved" := VBool true]> d :: l2) db),
      (length (filter (λ d, d !! "approved" = Some (VBool false)) l1)
       + length (filter (λ d, d !! "approved" = Some (VBool false)) l2))%nat.
    split; [done|].
    assert (∀ b,
      length (with_approved b
        (set_coll Testimonials (l1 ++ <["approved" := VBool true]> d :: l2) db))
      = (length (filter (λ d, d !! "approved" = Some (VBool b)) l1)
         + length (filter (λ d, d !! "approved" = Some (VBool b)) l2)
         + if b then 1 else 0)%nat) as Hafter.
    { intros b. unfold with_approved. cbn [set_coll testimonials].
      rewrite filter_app, length_app. destruct b.
      - rewrite filter_cons_True by apply lookup_insert_eq. simpl. lia.
      - rewrite filter_cons_False by (by rewrite lookup_insert_eq). lia. }
    assert (∀ b,
      length (with_approved b db)
      = (length (filter (λ d, d !! "approved" = Some (VBool b)) l1)
         + length (filter (λ d, d !! "approved" = Some (VBool b)) l2)
         + if b then 0 else 1)%nat) as Hbefore.
    { intros b. unfold with_approved. rewrite Hl, filter_app, length_app. destruct b.
      - rewrite filter_cons_False by (by rewrite Hd). lia.
      - rewrite filter_cons_True by done. simpl. lia. }
    split.
    + unfold pending. rewrite (Hbefore false). lia.
    + rewrite get_admin_stats_counts, !Hafter.
      unfold total, approved, total_wars, total_gallery.
      rewrite (Hbefore true). cbn [set_coll testimonials wars gallery].
      rewrite Hl, !length_app. simpl length.
      by rewrite !Nat.add_0_r, !Nat.add_1_r.
Qed.

Lemma admin_stats_follow_moderation_witness :
  ∃ db' pending',
    (approve_testimonial "t1" ∅ sample_db).2 = db'
    ∧ length (with_approved false sample_db) = S pending'
    ∧ get_admin_stats ∅ db'
      = (Ok (stats_doc (length (testimonials sample_db)) pending'
               (S (length (with_approved true sample_db)))
               (length (wars sample_db)) (length (gallery sample_db))), db').
Proof.
  apply (proj2 (admin_stats_follow_moderation ∅ sample_db) "t1" ∅ []
           ({[ "id" := VStr "t1"; "content" := VStr "Boa!"; "approved" := VBool false;
               "created_at" := VStr (isoformat 6) ]} : doc) []).
  - split; [reflexivity|]. split; [constructor|by vm_compute].
  - reflexivity.
Defined.

(** ** A deleted war is gone *)

Lemma listed_wars_are_stored db res d :
  get_wars db = (Ok res, db) → d ∈ res →
  ∃ d0, d0 ∈ wars db ∧ d = Mongo.project_no_id d0.
Proof.
  intros Hres Hd.
  destruct (listing_as_stored_spec "order" Wars db) as (res' & Hres' & Hfirst & _); [done|].
  change (get_wars db = (Ok res', db)) in Hres'.
  rewrite Hres' in Hres. injection Hres as ->.
  destruct Hfirst as (rest & _ & Hperm & _).
  assert (d ∈ res ++ rest) as Hin by (apply elem_of_app; by left).
  rewrite Hperm in Hin. apply list_elem_of_fmap in Hin as (d0 & -> & Hd0).
  by exists d0.
Qed.

(** X17. A deleted war is gone from the listing.  When the wars have
    distinct identifiers, after a delete by [war_id], successful or not,
    no war returned by the listing carries that identifier. *)
Theorem deleted_war_is_not_listed (war_id : string) (token : claims) (db : DB)
    (res : list doc) :
  NoDup (ids (wars db)) →
  get_wars (delete_war war_id token db).2 = (Ok res, (delete_war war_id token db).2) →
  Forall (λ d, ¬ has_id war_id d) res.
Proof.
  intros Hnodup Hres.
  assert (Forall (λ d, ¬ has_id war_id d) (wars (delete_war war_id token db).2)) as Hgone.
  { destruct (delete_war_store war_id token db)
      as [[Hmiss ->]|(l1 & d & l2 & (Hwars & Hl1 & Hd) & ->)]; [done|].
    cbn [snd]. change (wars (set_coll Wars ?l db)) with l.
    apply Forall_app. split; [done|].
    rewrite Hwars in Hnodup. unfold ids in Hnodup.
    rewrite omap_app in Hnodup. apply NoDup_app in Hnodup as (_ & _ & Hnodup).
    cbn [omap list_omap] in Hnodup. rewrite Hd in Hnodup.
    cbn [mbind option_bind] in Hnodup. apply NoDup_cons in Hnodup as [Hnotin _].
    apply Forall_forall. intros x Hx Hid. apply Hnotin.
    apply list_elem_of_omap. by exists x. }
  apply Forall_forall. intros d Hd.
  destruct (listed_wars_are_stored _ _ _ Hres Hd) as (d0 & Hd0 & ->).
  unfold has_id, Mongo.project_no_id. rewrite lookup_delete_ne by done.
  by apply (proj1 (Forall_forall _ _) Hgone).
Qed.

Lemma deleted_war_is_not_listed_witness :
  Forall (λ d, ¬ has_id "w1" d) [Mongo.project_no_id (sample_war "w2" 5)].
Proof.
  apply (deleted_war_is_not_listed "w1" ∅ sample_db).
  - apply (bool_decide_unpack _). by vm_compute.
  - reflexivity.
Defined.
